(** * terraform-provider-podman: the secret resource and the provider set-up

    A shallow embedding of [internal/provider/secret_resource.go] and of the
    provider's [Configure].  The handlers are straight-line Go with early
    returns; they call three kinds of collaborators that live outside the
    repository:

    - the Terraform plugin framework ([types], [diag], [tfsdk], [tflog]),
      modelled here at the interface the handlers use;
    - the podman bindings ([bindings.NewConnection], [secrets.Create],
      [secrets.List], [secrets.Remove]) and [os.LookupEnv], which are
      effects: a handler is a program ([Prog]) that issues them, and an
      interpreter ([run]) executes a program against any implementation of
      the collaborators ([Externals]), recording every call in a trace.

    Go strings are byte strings, as Rocq's [string] is. *)

From Stdlib Require Import ZArith NArith Ascii String.
From stdpp Require Import base option list strings gmap.

Local Open Scope string_scope.

(** ** Go values *)

(** A Go [map[string]V] is either [nil] or a finite map. *)
Abbreviation gomap V := (option (gmap string V)).

(** Go's [error] interface.  The bindings answer an API failure with an
    [errorhandling.ErrorModel] (cause, message, HTTP status), whose
    [Error()] is the message; anything else (dial failures, decoding
    failures) is an opaque error with a text. *)
Inductive error : Type :=
| ErrorModel (Because Message : string) (ResponseCode : Z)
| errorString (s : string).

Definition Error (e : error) : string :=
  match e with
  | ErrorModel _ message _ => message
  | errorString s => s
  end.

(** [strings.Contains]. *)
Fixpoint Contains (s substr : string) : bool :=
  String.prefix substr s ||
  match s with
  | EmptyString => false
  | String _ rest => Contains rest substr
  end.

(** ** fmt: the [%q] verb on a string ([strconv.Quote])

    Bytes below 0x80 are rendered as Go renders them.  A byte from 0x80 up
    is rendered as Go renders a byte that does not start a valid UTF-8
    sequence, [\xNN]; the statements below only quote ASCII text. *)
Module strconv.

Definition lowerhex (n : N) : ascii :=
  match String.get (N.to_nat n) "0123456789abcdef" with
  | Some c => c
  | None => "0"%char
  end.

Definition backslash : ascii := ascii_of_N 92.
Definition dquote : ascii := ascii_of_N 34.

Definition esc (c : ascii) : string := String backslash (String c "").

Definition appendEscapedRune (c : ascii) : string :=
  let n := N_of_ascii c in
  if (n =? 34)%N || (n =? 92)%N then esc c
  else if (32 <=? n)%N && (n <? 127)%N then String c ""
  else if (n =? 7)%N then esc "a"
  else if (n =? 8)%N then esc "b"
  else if (n =? 12)%N then esc "f"
  else if (n =? 10)%N then esc "n"
  else if (n =? 13)%N then esc "r"
  else if (n =? 9)%N then esc "t"
  else if (n =? 11)%N then esc "v"
  else String backslash
         (String "x" (String (lowerhex (N.shiftr n 4))
                        (String (lowerhex (N.land n 15)) ""))).

Fixpoint appendQuoted (s : string) : string :=
  match s with
  | EmptyString => String dquote ""
  | String c rest => appendEscapedRune c +:+ appendQuoted rest
  end.

Definition Quote (s : string) : string := String dquote (appendQuoted s).

End strconv.

(** ** terraform-plugin-framework/types *)
Module types.

(** [basetypes.StringValue]: null, unknown, or a known string.  The zero
    value of the Go struct is the null string. *)
Inductive String : Type :=
| StringNull
| StringUnknown
| StringValue (value : string).

Definition IsNull (s : String) : bool :=
  match s with StringNull => true | _ => false end.

Definition ValueString (s : String) : string :=
  match s with StringValue v => v | _ => "" end.

(** [ValueStringPointer]: [nil] for null, a pointer to the value
    otherwise (to the empty string for unknown). *)
Definition ValueStringPointer (s : String) : option string :=
  match s with
  | StringNull => None
  | StringUnknown => Some ""
  | StringValue v => Some v
  end.

(** [basetypes.MapValue] with [types.StringType] elements. *)
Inductive Map : Type :=
| MapNull
| MapUnknown
| MapValue (elements : gmap string String).

End types.

Module basetypes.
Definition NewStringValue (s : string) : types.String := types.StringValue s.
End basetypes.

(** ** terraform-plugin-framework/diag *)
Module diag.

Inductive SeverityT : Type := SeverityError | SeverityWarning.

Record Diagnostic : Type := NewDiagnostic {
  Severity : SeverityT;
  Summary : string;
  Detail : string
}.

#[global] Instance SeverityT_eq_dec : EqDecision SeverityT.
Proof. solve_decision. Defined.

#[global] Instance Diagnostic_eq_dec : EqDecision Diagnostic.
Proof. solve_decision. Defined.

Definition Diagnostics : Type := list Diagnostic.

Definition NewErrorDiagnostic (summary detail : string) : Diagnostic :=
  NewDiagnostic SeverityError summary detail.

(** [Diagnostics.Contains]. *)
Definition Contains (diags : Diagnostics) (d : Diagnostic) : bool :=
  bool_decide (d ∈ diags).

(** [Diagnostics.Append]: appends each diagnostic that is not already in
    the collection. *)
Fixpoint Append (diags : Diagnostics) (ins : list Diagnostic) : Diagnostics :=
  match ins with
  | [] => diags
  | d :: rest =>
      if Contains diags d then Append diags rest
      else Append (diags ++ [d])%list rest
  end.

Definition AddError (diags : Diagnostics) (summary detail : string) : Diagnostics :=
  Append diags [NewErrorDiagnostic summary detail].

Definition isError (d : Diagnostic) : bool :=
  match Severity d with SeverityError => true | SeverityWarning => false end.

Definition HasError (diags : Diagnostics) : bool := existsb isError diags.

End diag.

(** ** terraform-plugin-log/tflog *)
Module tflog.
Inductive Level : Type := LevelTrace | LevelDebug | LevelInfo | LevelWarn | LevelError.
Record Entry : Type := NewEntry { EntryLevel : Level; Message : string }.
End tflog.

(** ** Conversions between framework values and Go values

    [MapValue.ElementsAs] into a [map[string]string] and
    [basetypes.NewMapValueFrom] from one. *)
Module reflect.

Definition ValueConversionError : diag.Diagnostic :=
  diag.NewErrorDiagnostic "Value Conversion Error"
    "An unexpected error was encountered trying to build a value.".

Definition isKnown (s : types.String) : bool :=
  match s with types.StringValue _ => true | _ => false end.

(** The result is the diagnostics and the new content of the target: a
    null map makes the target [nil]; an unknown map, or an element that
    is not a known string, is an error and leaves the target as it was. *)
Definition ElementsAs (m : types.Map) (target : gomap string)
  : diag.Diagnostics * gomap string :=
  match m with
  | types.MapNull => ([], None)
  | types.MapUnknown => ([ValueConversionError], target)
  | types.MapValue elements =>
      if forallb isKnown (map_to_list elements).*2
      then ([], Some (types.ValueString <$> elements))
      else ([ValueConversionError], target)
  end.

Definition NewMapValueFrom (m : gomap string) : types.Map * diag.Diagnostics :=
  match m with
  | None => (types.MapNull, [])
  | Some elements => (types.MapValue (types.StringValue <$> elements), [])
  end.

End reflect.

(** ** terraform-plugin-framework/tfsdk

    A [tfsdk.State], [tfsdk.Plan] or [tfsdk.Config] over a schema whose
    model struct is [M]: the null object, or an object with the struct's
    fields. *)
Module tfsdk.

Definition Data (M : Type) : Type := option M.

(** [Get(ctx, &data)] with [data] holding [zero] before the call: a null
    object cannot be stored in a struct. *)
Definition Get {M : Type} (zero : M) (raw : Data M) : diag.Diagnostics * M :=
  match raw with
  | Some m => ([], m)
  | None => ([reflect.ValueConversionError], zero)
  end.

(** [State.Set(ctx, &data)] ([Set] is reserved in Rocq). *)
Definition Set_ {M : Type} (data : M) : diag.Diagnostics * Data M := ([], Some data).

(** [State.RemoveResource(ctx)]. *)
Definition RemoveResource {M : Type} : Data M := None.

End tfsdk.

(** ** podman: pkg/domain/entities and pkg/bindings/secrets

    Rocq allows one field of a given name per module; the name of a field
    that would clash carries its struct's name in front. *)
Module entities.

Record SecretDriverSpec : Type := {
  SecretDriverSpec_Name : string;
  Options : gomap string
}.

Record SecretSpec : Type := {
  Name : string;
  Driver : SecretDriverSpec;
  Labels : gomap string
}.

Record SecretInfoReport : Type := {
  ID : string;
  Spec : SecretSpec;
  SecretData : string
}.

Record SecretCreateReport : Type := { SecretCreateReport_ID : string }.

End entities.

Module secrets.

Record CreateOptions : Type := {
  Name : option string;
  Driver : option string;
  DriverOpts : gomap string;
  Labels : gomap string
}.

Record ListOptions : Type := { Filters : gomap (list string) }.

End secrets.

(** The connection handle [bindings.NewConnection] returns: a
    [context.Context] that carries the client for one endpoint. *)
Inductive Context : Type := Connection (uri : string).

(** ** Effects

    The calls a handler makes to the outside, each with the type of what
    it returns.  The [ctx] of a [secrets] call is the resource's [conn],
    an interface value that may be [nil]. *)
Inductive Call : Type -> Type :=
| os_LookupEnv (key : string) : Call (option string)
| bindings_NewConnection (uri : string) : Call (Context + error)
| secrets_Create (ctx : option Context) (reader : string) (options : secrets.CreateOptions)
  : Call (entities.SecretCreateReport + error)
| secrets_List (ctx : option Context) (options : secrets.ListOptions)
  : Call (list entities.SecretInfoReport + error)
| secrets_Remove (ctx : option Context) (nameOrID : string) : Call (option error)
| tflog_Error (msg : string) : Call unit.

(** A handler: it returns, or makes a call and goes on with the answer. *)
Inductive Prog (A : Type) : Type :=
| Ret (a : A)
| Do (T : Type) (c : Call T) (k : T -> Prog A).

Arguments Ret {A} a.
Arguments Do {A T} c k.

Fixpoint bind {A B : Type} (p : Prog A) (f : A -> Prog B) : Prog B :=
  match p with
  | Ret a => f a
  | Do c k => Do c (fun x => bind (k x) f)
  end.

#[global] Instance Prog_ret : MRet Prog := @Ret.
#[global] Instance Prog_bind : MBind Prog := fun A B f p => bind p f.

Definition call {T : Type} (c : Call T) : Prog T := Do c Ret.

(** ** The outside: what answers the calls

    [S] is the state of the container engine. *)
Record Externals (S : Type) : Type := {
  ext_LookupEnv : string -> option string;
  ext_NewConnection : string -> S -> Context + error;
  ext_Create : Context -> string -> secrets.CreateOptions -> S
               -> (entities.SecretCreateReport + error) * S;
  ext_List : Context -> secrets.ListOptions -> S
             -> (list entities.SecretInfoReport + error) * S;
  ext_Remove : Context -> string -> S -> option error * S
}.

Arguments ext_LookupEnv {S} _ _.
Arguments ext_NewConnection {S} _ _ _.
Arguments ext_Create {S} _ _ _ _ _.
Arguments ext_List {S} _ _ _ _.
Arguments ext_Remove {S} _ _ _ _.

(** One recorded call. *)
Inductive Event : Type := Called (T : Type) (c : Call T).

Arguments Called {T} c.

Record World (S : Type) : Type := {
  engine : S;
  trace : list Event;
  log : list tflog.Entry
}.

Arguments engine {S} _.
Arguments trace {S} _.
Arguments log {S} _.

Definition record {S T : Type} (c : Call T) (s : S) (w : World S) : World S :=
  {| engine := s; trace := (trace w ++ [Called c])%list; log := log w |}.

(** One call against the outside.  A [secrets] call on a [nil] context
    panics in the bindings ([None]); a log call appends to the log. *)
Definition perform {S T : Type} (X : Externals S) (c : Call T) (w : World S)
  : option (T * World S) :=
  match c in Call T return option (T * World S) with
  | os_LookupEnv key => Some (ext_LookupEnv X key, record (os_LookupEnv key) (engine w) w)
  | bindings_NewConnection uri =>
      Some (ext_NewConnection X uri (engine w), record (bindings_NewConnection uri) (engine w) w)
  | secrets_Create ctx reader options =>
      conn ← ctx;
      let '(res, s) := ext_Create X conn reader options (engine w) in
      Some (res, record (secrets_Create ctx reader options) s w)
  | secrets_List ctx options =>
      conn ← ctx;
      let '(res, s) := ext_List X conn options (engine w) in
      Some (res, record (secrets_List ctx options) s w)
  | secrets_Remove ctx nameOrID =>
      conn ← ctx;
      let '(res, s) := ext_Remove X conn nameOrID (engine w) in
      Some (res, record (secrets_Remove ctx nameOrID) s w)
  | tflog_Error msg =>
      Some (tt, {| engine := engine w; trace := trace w;
                   log := (log w ++ [tflog.NewEntry tflog.LevelError msg])%list |})
  end.

Fixpoint run {S A : Type} (X : Externals S) (p : Prog A) (w : World S)
  : option (A * World S) :=
  match p with
  | Ret a => Some (a, w)
  | Do c k =>
      match perform X c w with
      | Some (x, w') => run X (k x) w'
      | None => None
      end
  end.

(** ** package provider: the data models *)

(** A Go [any]: [nil], a connection handle, or a value of some other
    dynamic type, of which only the name ([%T]) matters. *)
Inductive any : Type :=
| any_nil
| any_Context (c : Context)
| any_other (T : string).

(** [SecretResourceModel]. *)
Record SecretResourceModel : Type := {
  Id : types.String;
  Name : types.String;
  Driver : types.String;
  DriverOpts : types.Map;
  Labels : types.Map;
  Secret : types.String
}.

(** [var data SecretResourceModel]. *)
Definition zeroSecretResourceModel : SecretResourceModel :=
  {| Id := types.StringNull; Name := types.StringNull; Driver := types.StringNull;
     DriverOpts := types.MapNull; Labels := types.MapNull; Secret := types.StringNull |}.

Definition set_Id (v : types.String) (d : SecretResourceModel) : SecretResourceModel :=
  {| Id := v; Name := Name d; Driver := Driver d; DriverOpts := DriverOpts d;
     Labels := Labels d; Secret := Secret d |}.

Definition set_Name (v : types.String) (d : SecretResourceModel) : SecretResourceModel :=
  {| Id := Id d; Name := v; Driver := Driver d; DriverOpts := DriverOpts d;
     Labels := Labels d; Secret := Secret d |}.

Definition set_Driver (v : types.String) (d : SecretResourceModel) : SecretResourceModel :=
  {| Id := Id d; Name := Name d; Driver := v; DriverOpts := DriverOpts d;
     Labels := Labels d; Secret := Secret d |}.

Definition set_DriverOpts (v : types.Map) (d : SecretResourceModel) : SecretResourceModel :=
  {| Id := Id d; Name := Name d; Driver := Driver d; DriverOpts := v;
     Labels := Labels d; Secret := Secret d |}.

Definition set_Labels (v : types.Map) (d : SecretResourceModel) : SecretResourceModel :=
  {| Id := Id d; Name := Name d; Driver := Driver d; DriverOpts := DriverOpts d;
     Labels := v; Secret := Secret d |}.

Definition set_Secret (v : types.String) (d : SecretResourceModel) : SecretResourceModel :=
  {| Id := Id d; Name := Name d; Driver := Driver d; DriverOpts := DriverOpts d;
     Labels := Labels d; Secret := v |}.

(** [PodmanProviderModel]. *)
Record PodmanProviderModel : Type := { Endpoint : types.String }.

Definition zeroPodmanProviderModel : PodmanProviderModel :=
  {| Endpoint := types.StringNull |}.

(** ** terraform-plugin-framework/resource and /provider: requests and
    responses, with the fields the handlers use *)
Module resource.

Record ConfigureRequest : Type := { ProviderData : any }.
Record ConfigureResponse : Type := { ConfigureResponse_Diagnostics : diag.Diagnostics }.

Record CreateRequest : Type := { CreateRequest_Plan : tfsdk.Data SecretResourceModel }.
Record ReadRequest : Type := { ReadRequest_State : tfsdk.Data SecretResourceModel }.
Record UpdateRequest : Type := {
  UpdateRequest_Plan : tfsdk.Data SecretResourceModel;
  UpdateRequest_State : tfsdk.Data SecretResourceModel
}.
Record DeleteRequest : Type := { DeleteRequest_State : tfsdk.Data SecretResourceModel }.

(** [CreateResponse], [ReadResponse], [UpdateResponse] and
    [DeleteResponse] each carry the state the host will persist and the
    diagnostics. *)
Record Response : Type := {
  State : tfsdk.Data SecretResourceModel;
  Diagnostics : diag.Diagnostics
}.

(** [resp.Diagnostics.Append(diags...)]. *)
Definition Append (resp : Response) (diags : diag.Diagnostics) : Response :=
  {| State := State resp; Diagnostics := diag.Append (Diagnostics resp) diags |}.

(** [resp.Diagnostics.AddError(summary, detail)]. *)
Definition AddError (resp : Response) (summary detail : string) : Response :=
  {| State := State resp; Diagnostics := diag.AddError (Diagnostics resp) summary detail |}.

(** [resp.Diagnostics.Append(resp.State.Set(ctx, &data)...)]. *)
Definition StateSet (resp : Response) (data : SecretResourceModel) : Response :=
  let '(diags, st) := tfsdk.Set_ data in
  Append {| State := st; Diagnostics := Diagnostics resp |} diags.

(** [resp.State.RemoveResource(ctx)]. *)
Definition StateRemoveResource (resp : Response) : Response :=
  {| State := tfsdk.RemoveResource; Diagnostics := Diagnostics resp |}.

End resource.

Module provider.

Record ConfigureRequest : Type := { Config : tfsdk.Data PodmanProviderModel }.

Record ConfigureResponse : Type := {
  Diagnostics : diag.Diagnostics;
  ResourceData : any;
  DataSourceData : any
}.

Definition Append (resp : ConfigureResponse) (diags : diag.Diagnostics) : ConfigureResponse :=
  {| Diagnostics := diag.Append (Diagnostics resp) diags;
     ResourceData := ResourceData resp; DataSourceData := DataSourceData resp |}.

Definition AddError (resp : ConfigureResponse) (summary detail : string) : ConfigureResponse :=
  {| Diagnostics := diag.AddError (Diagnostics resp) summary detail;
     ResourceData := ResourceData resp; DataSourceData := DataSourceData resp |}.

End provider.

(** ** PodmanProvider.Configure *)

Definition PodmanProvider_Configure
    (req : provider.ConfigureRequest) (resp : provider.ConfigureResponse)
  : Prog provider.ConfigureResponse :=
  let '(diags, data) := tfsdk.Get zeroPodmanProviderModel (provider.Config req) in
  let resp := provider.Append resp diags in
  if diag.HasError (provider.Diagnostics resp) then mret resp else
  let connect (endpoint : string) : Prog provider.ConfigureResponse :=
    res ← call (bindings_NewConnection endpoint);
    match res with
    | inr err =>
        mret (provider.AddError resp "failed to connect to podman socket" (Error err))
    | inl conn =>
        mret {| provider.Diagnostics := provider.Diagnostics resp;
                provider.ResourceData := any_Context conn;
                provider.DataSourceData := any_Context conn |}
    end in
  if types.IsNull (Endpoint data) then
    dir ← call (os_LookupEnv "XDG_RUNTIME_DIR");
    match dir with
    | None =>
        mret (provider.AddError resp "default endpoint cannot be used"
                "XDG_RUNTIME_DIR env var isn't set")
    | Some dir => connect ("unix:" +:+ dir +:+ "/podman/podman.sock")
    end
  else connect (types.ValueString (Endpoint data)).

(** ** SecretResource *)

Record SecretResource : Type := { conn : option Context }.

(** [NewSecretResource]. *)
Definition NewSecretResource : SecretResource := {| conn := None |}.

Definition SecretResource_Configure
    (r : SecretResource) (req : resource.ConfigureRequest) (resp : resource.ConfigureResponse)
  : SecretResource * resource.ConfigureResponse :=
  match resource.ProviderData req with
  | any_nil => (r, resp)
  | any_Context conn => ({| conn := Some conn |}, resp)
  | any_other T =>
      (r, {| resource.ConfigureResponse_Diagnostics :=
               diag.AddError (resource.ConfigureResponse_Diagnostics resp)
                 "Unexpected Resource Configure Type"
                 ("Expected *http.Client, got: " +:+ T +:+
                  ". Please report this issue to the provider developers.") |})
  end.

Definition SecretResource_Create
    (r : SecretResource) (req : resource.CreateRequest) (resp : resource.Response)
  : Prog resource.Response :=
  let '(diags, data) := tfsdk.Get zeroSecretResourceModel (resource.CreateRequest_Plan req) in
  let resp := resource.Append resp diags in
  if diag.HasError (resource.Diagnostics resp) then mret resp else
  let driverOpts : gomap string := Some ∅ in
  let labels : gomap string := Some ∅ in
  let '(diags, driverOpts) := reflect.ElementsAs (DriverOpts data) driverOpts in
  let resp := resource.Append resp diags in
  if diag.HasError (resource.Diagnostics resp) then mret resp else
  let '(diags, labels) := reflect.ElementsAs (Labels data) labels in
  let resp := resource.Append resp diags in
  if diag.HasError (resource.Diagnostics resp) then mret resp else
  res ← call (secrets_Create (conn r) (types.ValueString (Secret data))
                {| secrets.Name := types.ValueStringPointer (Name data);
                   secrets.Driver := types.ValueStringPointer (Driver data);
                   secrets.DriverOpts := driverOpts;
                   secrets.Labels := labels |});
  match res with
  | inr err => mret (resource.AddError resp "failed to add secret" (Error err))
  | inl createResp =>
      let data := set_Id (types.StringValue (entities.SecretCreateReport_ID createResp)) data in
      let data :=
        if types.IsNull (Driver data) then set_Driver (types.StringValue "file") data
        else data in
      mret (resource.StateSet resp data)
  end.

Definition SecretResource_Read
    (r : SecretResource) (req : resource.ReadRequest) (resp : resource.Response)
  : Prog resource.Response :=
  let '(diags, data) := tfsdk.Get zeroSecretResourceModel (resource.ReadRequest_State req) in
  let resp := resource.Append resp diags in
  if diag.HasError (resource.Diagnostics resp) then mret resp else
  res ← call (secrets_List (conn r)
                {| secrets.Filters := Some {[ "id" := [types.ValueString (Id data)] ]} |});
  match res with
  | inr err => mret (resource.AddError resp "failed to get secret" (Error err))
  | inl [] => mret (resource.StateRemoveResource resp)
  | inl (secret0 :: _) =>
      let data := set_Name (basetypes.NewStringValue
                              (entities.Name (entities.Spec secret0))) data in
      let data := set_Driver (basetypes.NewStringValue
                                (entities.SecretDriverSpec_Name
                                   (entities.Driver (entities.Spec secret0)))) data in
      let '(driverOpts, diags) :=
        reflect.NewMapValueFrom (entities.Options (entities.Driver (entities.Spec secret0))) in
      let resp := resource.Append resp diags in
      let data := set_DriverOpts driverOpts data in
      let '(labels, diags) := reflect.NewMapValueFrom (entities.Labels (entities.Spec secret0)) in
      let resp := resource.Append resp diags in
      let data := set_Labels labels data in
      let data := set_Secret (basetypes.NewStringValue (entities.SecretData secret0)) data in
      _ ← call (tflog_Error ("secretdata: " +:+ strconv.Quote (entities.SecretData secret0)));
      mret (resource.StateSet resp data)
  end.

Definition SecretResource_Update
    (r : SecretResource) (req : resource.UpdateRequest) (resp : resource.Response)
  : Prog resource.Response :=
  let '(diags, data) := tfsdk.Get zeroSecretResourceModel (resource.UpdateRequest_Plan req) in
  let resp := resource.Append resp diags in
  if diag.HasError (resource.Diagnostics resp) then mret resp else
  mret (resource.StateSet resp data).

Definition SecretResource_Delete
    (r : SecretResource) (req : resource.DeleteRequest) (resp : resource.Response)
  : Prog resource.Response :=
  let '(diags, data) := tfsdk.Get zeroSecretResourceModel (resource.DeleteRequest_State req) in
  let resp := resource.Append resp diags in
  if diag.HasError (resource.Diagnostics resp) then mret resp else
  res ← call (secrets_Remove (conn r) (types.ValueString (Id data)));
  match res with
  | Some err => mret (resource.AddError resp "failed to delete secret" (Error err))
  | None => mret resp
  end.

(** ** A simulated outside

    A small container engine to run the handlers against: a store of
    secrets, a supply of identifiers for new secrets, and a switch that
    makes every call fail when the engine is down.  A listing never shows
    secret content, an identifier filter keeps the records whose identifier
    is one of the values, and removing what is not there is answered with
    a not-found failure (HTTP 404). *)
Module Sim.

Record Engine : Type := {
  up : bool;
  store : list entities.SecretInfoReport;
  fresh : list string
}.

Definition unreachable : error := errorString "connection refused".
Definition noSuchSecret (nameOrID : string) : error :=
  ErrorModel "no such secret"
    ("no secret with name or id " +:+ nameOrID +:+ ": no such secret") 404.

Definition NewConnection (uri : string) (e : Engine) : Context + error :=
  if up e then inl (Connection uri) else inr unreachable.

Definition Create (_ : Context) (reader : string) (options : secrets.CreateOptions)
    (e : Engine) : (entities.SecretCreateReport + error) * Engine :=
  if up e then
    match fresh e with
    | [] => (inr (ErrorModel "no identifier left"
                    "creating secret: no identifier left" 500), e)
    | id :: ids =>
        let info :=
          {| entities.ID := id;
             entities.Spec :=
               {| entities.Name := default "" (secrets.Name options);
                  entities.Driver :=
                    {| entities.SecretDriverSpec_Name := default "file" (secrets.Driver options);
                       entities.Options := secrets.DriverOpts options |};
                  entities.Labels := secrets.Labels options |};
             entities.SecretData := "" |} in
        (inl {| entities.SecretCreateReport_ID := id |},
         {| up := true; store := (store e ++ [info])%list; fresh := ids |})
    end
  else (inr unreachable, e).

Definition selected (options : secrets.ListOptions) (s : entities.SecretInfoReport) : bool :=
  match secrets.Filters options with
  | None => true
  | Some filters =>
      match filters !! "id" with
      | None => true
      | Some ids => bool_decide (entities.ID s ∈ ids)
      end
  end.

Definition List (_ : Context) (options : secrets.ListOptions) (e : Engine)
  : (list entities.SecretInfoReport + error) * Engine :=
  if up e then (inl (List.filter (selected options) (store e)), e)
  else (inr unreachable, e).

Definition named (nameOrID : string) (s : entities.SecretInfoReport) : bool :=
  String.eqb (entities.ID s) nameOrID ||
  String.eqb (entities.Name (entities.Spec s)) nameOrID.

Definition Remove (_ : Context) (nameOrID : string) (e : Engine) : option error * Engine :=
  if up e then
    if existsb (named nameOrID) (store e)
    then (None, {| up := true;
                   store := List.filter (fun s => negb (named nameOrID s)) (store e);
                   fresh := fresh e |})
    else (Some (noSuchSecret nameOrID), e)
  else (Some unreachable, e).

(** The process environment: only [XDG_RUNTIME_DIR] may be set. *)
Definition environ (xdg : option string) (key : string) : option string :=
  if String.eqb key "XDG_RUNTIME_DIR" then xdg else None.

Definition externals (xdg : option string) : Externals Engine :=
  {| ext_LookupEnv := environ xdg;
     ext_NewConnection := NewConnection;
     ext_Create := Create;
     ext_List := List;
     ext_Remove := Remove |}.

Definition world (e : Engine) : World Engine :=
  {| engine := e; trace := []; log := [] |}.

(** Concrete inputs. *)
Definition sock : Context := Connection "unix:/run/user/1000/podman/podman.sock".
Definition r : SecretResource := {| conn := Some sock |}.
Definition fresh_resp : resource.Response :=
  {| resource.State := None; resource.Diagnostics := [] |}.

Definition info (id name data : string) : entities.SecretInfoReport :=
  {| entities.ID := id;
     entities.Spec :=
       {| entities.Name := name;
          entities.Driver := {| entities.SecretDriverSpec_Name := "file";
                                entities.Options := Some ∅ |};
          entities.Labels := Some {[ "foo" := "bar" ]} |};
     entities.SecretData := data |}.

(** The configuration of the repository's example: name foo, secret bar,
    driver file, one label. *)
Definition plan_foo (driver : types.String) : SecretResourceModel :=
  {| Id := types.StringUnknown;
     Name := types.StringValue "foo";
     Driver := driver;
     DriverOpts := types.MapNull;
     Labels := types.MapValue {[ "foo" := types.StringValue "bar" ]};
     Secret := types.StringValue "bar" |}.

(** The state after that configuration was created as [abc123]. *)
Definition state_foo : SecretResourceModel :=
  set_Id (types.StringValue "abc123") (plan_foo (types.StringValue "file")).

Definition prior_resp : resource.Response :=
  {| resource.State := Some state_foo; resource.Diagnostics := [] |}.

Definition engine_empty : Engine := {| up := true; store := []; fresh := ["abc123"] |}.
Definition engine_down : Engine := {| up := false; store := []; fresh := [] |}.
Definition engine_foo (data : string) : Engine :=
  {| up := true; store := [info "abc123" "foo" data]; fresh := [] |}.

End Sim.


(** ** The rest of the package

    The functions below complete the two files: metadata, schemas, import,
    the provider's constructor and resource list, and the earlier version
    of Read that the resource file still carries. *)

(** [tfsdk.State.SetAttribute(ctx, path.Root(name), value)] for a string
    attribute, [set] being the write to the field that carries the tag
    [name]: on a null state the other attributes of the new object are
    null. *)
Definition tfsdk_SetAttribute {M : Type} (zero : M) (set : types.String -> M -> M)
    (value : string) (raw : tfsdk.Data M) : diag.Diagnostics * tfsdk.Data M :=
  ([], Some (set (types.StringValue value) (default zero raw))).

Module metadata.

Record ProviderResponse : Type := { TypeName : string; Version : string }.
Record ResourceRequest : Type := { ProviderTypeName : string }.
Record ResourceResponse : Type := { ResourceResponse_TypeName : string }.

End metadata.

(** [PodmanProvider] and [New]. *)
Record PodmanProvider : Type := { version : string }.

Definition New (version : string) : unit -> PodmanProvider :=
  fun _ => {| version := version |}.

Definition PodmanProvider_Metadata (p : PodmanProvider) (resp : metadata.ProviderResponse)
  : metadata.ProviderResponse :=
  {| metadata.TypeName := "podman"; metadata.Version := version p |}.

Definition PodmanProvider_Resources (p : PodmanProvider) : list (unit -> SecretResource) :=
  [fun _ => NewSecretResource].

Definition SecretResource_Metadata (r : SecretResource) (req : metadata.ResourceRequest)
    (resp : metadata.ResourceResponse) : metadata.ResourceResponse :=
  {| metadata.ResourceResponse_TypeName := metadata.ProviderTypeName req +:+ "_secret" |}.

(** ** Schemas *)
Module schema.

Inductive Kind : Type := StringAttribute | MapAttribute.
Inductive PlanModifier : Type := UseStateForUnknown.

Record Attribute : Type := {
  AttributeKind : Kind;
  Required : bool;
  Optional : bool;
  Computed : bool;
  Sensitive : bool;
  PlanModifiers : list PlanModifier
}.

#[global] Instance Kind_eq_dec : EqDecision Kind.
Proof. solve_decision. Defined.

End schema.

(** [SecretResource.Schema]: the attributes of the current version. *)
Definition SecretResource_Schema : gmap string schema.Attribute :=
  list_to_map
    [("name", {| schema.AttributeKind := schema.StringAttribute; schema.Required := true;
                 schema.Optional := false; schema.Computed := false;
                 schema.Sensitive := false; schema.PlanModifiers := [] |});
     ("driver", {| schema.AttributeKind := schema.StringAttribute; schema.Required := false;
                   schema.Optional := true; schema.Computed := true;
                   schema.Sensitive := false; schema.PlanModifiers := [] |});
     ("labels", {| schema.AttributeKind := schema.MapAttribute; schema.Required := false;
                   schema.Optional := true; schema.Computed := false;
                   schema.Sensitive := false; schema.PlanModifiers := [] |});
     ("driver_opts", {| schema.AttributeKind := schema.MapAttribute; schema.Required := false;
                        schema.Optional := true; schema.Computed := false;
                        schema.Sensitive := false; schema.PlanModifiers := [] |});
     ("secret", {| schema.AttributeKind := schema.StringAttribute; schema.Required := true;
                   schema.Optional := false; schema.Computed := false;
                   schema.Sensitive := true; schema.PlanModifiers := [] |});
     ("id", {| schema.AttributeKind := schema.StringAttribute; schema.Required := false;
               schema.Optional := false; schema.Computed := true;
               schema.Sensitive := false;
               schema.PlanModifiers := [schema.UseStateForUnknown] |})].

(** The [tfsdk] tags of [SecretResourceModel], with the kind of each
    field ([types.String] or [types.Map]). *)
Definition SecretResourceModel_tags : list (string * schema.Kind) :=
  [("id", schema.StringAttribute); ("name", schema.StringAttribute);
   ("driver", schema.StringAttribute); ("driver_opts", schema.MapAttribute);
   ("labels", schema.MapAttribute); ("secret", schema.StringAttribute)].

(** [PodmanProvider.Schema] and the tags of [PodmanProviderModel]. *)
Definition PodmanProvider_Schema : gmap string schema.Attribute :=
  {[ "endpoint" := {| schema.AttributeKind := schema.StringAttribute;
                      schema.Required := false; schema.Optional := true;
                      schema.Computed := false; schema.Sensitive := false;
                      schema.PlanModifiers := [] |} ]}.

Definition PodmanProviderModel_tags : list (string * schema.Kind) :=
  [("endpoint", schema.StringAttribute)].

(** A model struct fits a schema when its tags are the attribute names
    and each field has the kind of its attribute. *)
Definition fits (tags : list (string * schema.Kind)) (s : gmap string schema.Attribute) : bool :=
  bool_decide (schema.AttributeKind <$> s = list_to_map tags) &&
  bool_decide (NoDup tags.*1).

(** What the framework requires of an attribute: it is required, optional
    or computed, and a required one is neither of the others. *)
Definition wellFormed (a : schema.Attribute) : bool :=
  (schema.Required a || schema.Optional a || schema.Computed a) &&
  negb (schema.Required a && (schema.Optional a || schema.Computed a)).

(** ** SecretResource.ImportState

    [resource.ImportStatePassthroughID] with [path.Root("id")]: the
    identifier of the request is written to the attribute [id] of the
    state. *)
Record ImportStateRequest : Type := { ImportStateRequest_ID : string }.

Definition SecretResource_ImportState (r : SecretResource) (req : ImportStateRequest)
    (resp : resource.Response) : resource.Response :=
  let '(diags, st) :=
    tfsdk_SetAttribute zeroSecretResourceModel set_Id (ImportStateRequest_ID req)
      (resource.State resp) in
  resource.Append {| resource.State := st; resource.Diagnostics := resource.Diagnostics resp |}
    diags.

(** ** The earlier version of the resource

    The file carries an earlier version of the resource, in which [labels]
    is one string and there are no driver options.  Its Read: *)
Module V0.

Record SecretResourceModel : Type := {
  Id : types.String;
  Name : types.String;
  Driver : types.String;
  Labels : types.String;
  Secret : types.String
}.

Definition zeroSecretResourceModel : SecretResourceModel :=
  {| Id := types.StringNull; Name := types.StringNull; Driver := types.StringNull;
     Labels := types.StringNull; Secret := types.StringNull |}.

Definition set_Name (v : types.String) (d : SecretResourceModel) : SecretResourceModel :=
  {| Id := Id d; Name := v; Driver := Driver d; Labels := Labels d; Secret := Secret d |}.

Definition set_Driver (v : types.String) (d : SecretResourceModel) : SecretResourceModel :=
  {| Id := Id d; Name := Name d; Driver := v; Labels := Labels d; Secret := Secret d |}.

Definition set_Secret (v : types.String) (d : SecretResourceModel) : SecretResourceModel :=
  {| Id := Id d; Name := Name d; Driver := Driver d; Labels := Labels d; Secret := v |}.

Record ReadRequest : Type := { ReadRequest_State : tfsdk.Data SecretResourceModel }.

Record Response : Type := {
  State : tfsdk.Data SecretResourceModel;
  Diagnostics : diag.Diagnostics
}.

Definition Append (resp : Response) (diags : diag.Diagnostics) : Response :=
  {| State := State resp; Diagnostics := diag.Append (Diagnostics resp) diags |}.

Definition AddError (resp : Response) (summary detail : string) : Response :=
  {| State := State resp; Diagnostics := diag.AddError (Diagnostics resp) summary detail |}.

Definition StateSet (resp : Response) (data : SecretResourceModel) : Response :=
  let '(diags, st) := tfsdk.Set_ data in
  Append {| State := st; Diagnostics := Diagnostics resp |} diags.

Definition StateRemoveResource (resp : Response) : Response :=
  {| State := tfsdk.RemoveResource; Diagnostics := Diagnostics resp |}.

Definition SecretResource_Read
    (r : SecretResource) (req : ReadRequest) (resp : Response) : Prog Response :=
  let '(diags, data) := tfsdk.Get zeroSecretResourceModel (ReadRequest_State req) in
  let resp := Append resp diags in
  if diag.HasError (Diagnostics resp) then mret resp else
  res ← call (secrets_List (conn r)
                {| secrets.Filters := Some {[ "id" := [types.ValueString (Id data)] ]} |});
  match res with
  | inr err => mret (AddError resp "failed to get secret" (Error err))
  | inl [] => mret (StateRemoveResource resp)
  | inl (secret0 :: _) =>
      let data := set_Name (basetypes.NewStringValue
                              (entities.Name (entities.Spec secret0))) data in
      let data := set_Driver (basetypes.NewStringValue
                                (entities.SecretDriverSpec_Name
                                   (entities.Driver (entities.Spec secret0)))) data in
      let data := set_Secret (basetypes.NewStringValue (entities.SecretData secret0)) data in
      mret (StateSet resp data)
  end.

(** The schema of this version and the tags of its model. *)
Definition SecretResource_Schema : gmap string schema.Attribute :=
  list_to_map
    [("name", {| schema.AttributeKind := schema.StringAttribute; schema.Required := true;
                 schema.Optional := false; schema.Computed := false;
                 schema.Sensitive := false; schema.PlanModifiers := [] |});
     ("driver", {| schema.AttributeKind := schema.StringAttribute; schema.Required := false;
                   schema.Optional := true; schema.Computed := false;
                   schema.Sensitive := false; schema.PlanModifiers := [] |});
     ("labels", {| schema.AttributeKind := schema.StringAttribute; schema.Required := false;
                   schema.Optional := true; schema.Computed := false;
                   schema.Sensitive := false; schema.PlanModifiers := [] |});
     ("secret", {| schema.AttributeKind := schema.StringAttribute; schema.Required := true;
                   schema.Optional := false; schema.Computed := false;
                   schema.Sensitive := true; schema.PlanModifiers := [] |});
     ("id", {| schema.AttributeKind := schema.StringAttribute; schema.Required := false;
               schema.Optional := false; schema.Computed := true;
               schema.Sensitive := false;
               schema.PlanModifiers := [schema.UseStateForUnknown] |})].

Definition SecretResourceModel_tags : list (string * schema.Kind) :=
  [("id", schema.StringAttribute); ("name", schema.StringAttribute);
   ("driver", schema.StringAttribute); ("labels", schema.StringAttribute);
   ("secret", schema.StringAttribute)].

End V0.

(** ** Text that [%q] leaves as it is

    A byte is plain when [strconv.Quote] copies it: printable ASCII other
    than the double quote and the backslash. *)
Definition plainByte (c : ascii) : bool :=
  let n := N_of_ascii c in
  (32 <=? n)%N && (n <? 127)%N && negb (n =? 34)%N && negb (n =? 92)%N.

Fixpoint plain (s : string) : bool :=
  match s with
  | EmptyString => true
  | String c rest => plainByte c && plain rest
  end.


(** ** What the host plans for an attribute the configuration leaves out

    [MarkComputedNilsAsUnknown]: when the framework plans a resource that
    is to be created or changed, a computed attribute that is null in the
    configuration is unknown in the plan. *)
Definition MarkComputedNilsAsUnknown (a : schema.Attribute) (config : types.String)
  : types.String :=
  if schema.Computed a && types.IsNull config then types.StringUnknown else config.

(** * Properties *)

(** ** Diagnostics *)

Lemma HasError_app (ds1 ds2 : diag.Diagnostics) :
  diag.HasError (ds1 ++ ds2)%list = diag.HasError ds1 || diag.HasError ds2.
Proof. unfold diag.HasError. apply existsb_app. Qed.

Lemma Contains_HasError (ds : diag.Diagnostics) (d : diag.Diagnostic) :
  diag.Contains ds d = true -> diag.isError d = true -> diag.HasError ds = true.
Proof.
  unfold diag.Contains. intros Hin Herr.
  apply bool_decide_eq_true in Hin. apply list_elem_of_In in Hin.
  unfold diag.HasError. apply existsb_exists. eauto.
Qed.

(** Appending keeps what was there, in order, and an error stays an error
    whether or not the diagnostic was already present. *)
Lemma HasError_Append (ds ins : diag.Diagnostics) :
  diag.HasError (diag.Append ds ins) = diag.HasError ds || diag.HasError ins.
Proof.
  revert ds. induction ins as [|d ins IH]; intros ds; simpl.
  - by rewrite orb_false_r.
  - destruct (diag.Contains ds d) eqn:Hc.
    + rewrite IH. destruct (diag.isError d) eqn:He; [|done].
      by rewrite (Contains_HasError _ _ Hc He).
    + rewrite IH, HasError_app. simpl. rewrite orb_false_r.
      by rewrite orb_assoc.
Qed.

Lemma HasError_AddError (ds : diag.Diagnostics) (summary detail : string) :
  diag.HasError (diag.AddError ds summary detail) = true.
Proof. unfold diag.AddError. rewrite HasError_Append. simpl. apply orb_true_r. Qed.

Lemma elem_of_AddError (ds : diag.Diagnostics) (summary detail : string) :
  diag.NewErrorDiagnostic summary detail ∈ diag.AddError ds summary detail.
Proof.
  unfold diag.AddError. simpl.
  destruct (diag.Contains ds _) eqn:Hc.
  - by apply bool_decide_eq_true in Hc.
  - apply elem_of_app. right. apply list_elem_of_singleton. done.
Qed.

(** Nothing is ever taken out of the diagnostics. *)
Lemma AddError_keeps (ds : diag.Diagnostics) (summary detail : string) (d : diag.Diagnostic) :
  d ∈ ds -> d ∈ diag.AddError ds summary detail.
Proof.
  intros Hin. unfold diag.AddError. simpl.
  destruct (diag.Contains ds _); [done|]. apply elem_of_app. by left.
Qed.

Lemma resource_Append_nil (resp : resource.Response) : resource.Append resp [] = resp.
Proof. by destruct resp. Qed.

Lemma provider_Append_nil (resp : provider.ConfigureResponse) : provider.Append resp [] = resp.
Proof. by destruct resp. Qed.

(** A conversion into a Go map reports nothing unless it fails. *)
Lemma ElementsAs_ok (m : types.Map) (target : gomap string) :
  diag.HasError (reflect.ElementsAs m target).1 = false ->
  (reflect.ElementsAs m target).1 = [].
Proof.
  destruct m as [| |elements]; simpl; try done.
  by destruct (forallb _ _).
Qed.

(** ** Running a call *)
Section Running.
Context {S : Type} (X : Externals S).

Lemma run_Do {T A : Type} (c : Call T) (k : T -> Prog A) (w : World S) :
  run X (Do c k) w =
  match perform X c w with
  | Some (x, w') => run X (k x) w'
  | None => None
  end.
Proof. reflexivity. Qed.

Lemma perform_List (c : Context) (o : secrets.ListOptions) (w : World S) res s :
  ext_List X c o (engine w) = (res, s) ->
  perform X (secrets_List (Some c) o) w = Some (res, record (secrets_List (Some c) o) s w).
Proof. intros H. simpl. by rewrite H. Qed.

Lemma perform_Create (c : Context) (reader : string) (o : secrets.CreateOptions)
    (w : World S) res s :
  ext_Create X c reader o (engine w) = (res, s) ->
  perform X (secrets_Create (Some c) reader o) w =
  Some (res, record (secrets_Create (Some c) reader o) s w).
Proof. intros H. simpl. by rewrite H. Qed.

Lemma perform_Remove (c : Context) (id : string) (w : World S) res s :
  ext_Remove X c id (engine w) = (res, s) ->
  perform X (secrets_Remove (Some c) id) w =
  Some (res, record (secrets_Remove (Some c) id) s w).
Proof. intros H. simpl. by rewrite H. Qed.

End Running.

(** ** SecretResource.Read *)
Section Read.
Context {S : Type} (X : Externals S).

(** What Read does when the listing succeeds with at least one record:
    one call, one log line, and a state rebuilt from the first record
    around the identifier of the prior state. *)
Lemma Read_found (r : SecretResource) (c : Context) (req : resource.ReadRequest)
    (resp : resource.Response) (prior : SecretResourceModel) (w : World S)
    (secret0 : entities.SecretInfoReport) (rest : list entities.SecretInfoReport) (s' : S) :
  conn r = Some c ->
  resource.ReadRequest_State req = Some prior ->
  diag.HasError (resource.Diagnostics resp) = false ->
  ext_List X c {| secrets.Filters := Some {[ "id" := [types.ValueString (Id prior)] ]} |}
    (engine w) = (inl (secret0 :: rest), s') ->
  run X (SecretResource_Read r req resp) w =
  Some ({| resource.State :=
             Some {| Id := Id prior;
                     Name := types.StringValue (entities.Name (entities.Spec secret0));
                     Driver := types.StringValue
                                 (entities.SecretDriverSpec_Name
                                    (entities.Driver (entities.Spec secret0)));
                     DriverOpts :=
                       (reflect.NewMapValueFrom
                          (entities.Options (entities.Driver (entities.Spec secret0)))).1;
                     Labels :=
                       (reflect.NewMapValueFrom (entities.Labels (entities.Spec secret0))).1;
                     Secret := types.StringValue (entities.SecretData secret0) |};
           resource.Diagnostics := resource.Diagnostics resp |},
        {| engine := s';
           trace := (trace w ++ [Called (secrets_List (Some c)
                       {| secrets.Filters :=
                            Some {[ "id" := [types.ValueString (Id prior)] ]} |})])%list;
           log := (log w ++ [tflog.NewEntry tflog.LevelError
                               ("secretdata: " +:+ strconv.Quote (entities.SecretData secret0))])%list |}).
Proof.
  intros Hconn Hstate Hok Hlist.
  unfold SecretResource_Read. rewrite Hstate. simpl. rewrite Hok, Hconn.
  rewrite run_Do, (perform_List X _ _ _ _ _ Hlist).
  destruct resp as [st ds].
  destruct (entities.Options _), (entities.Labels _); reflexivity.
Qed.

(** C4. When the listing by the prior state's identifier succeeds with
    no record, Read returns with the state removed and adds no
    diagnostic: the absence is not reported as an error. *)
Theorem Read_absent_removes_state (r : SecretResource) (c : Context)
    (req : resource.ReadRequest) (resp : resource.Response)
    (prior : SecretResourceModel) (w : World S) (s' : S) :
  conn r = Some c ->
  resource.ReadRequest_State req = Some prior ->
  diag.HasError (resource.Diagnostics resp) = false ->
  ext_List X c {| secrets.Filters := Some {[ "id" := [types.ValueString (Id prior)] ]} |}
    (engine w) = (inl [], s') ->
  exists resp' w',
    run X (SecretResource_Read r req resp) w = Some (resp', w') /\
    resource.State resp' = None /\
    resource.Diagnostics resp' = resource.Diagnostics resp /\
    diag.HasError (resource.Diagnostics resp') = false.
Proof.
  intros Hconn Hstate Hok Hlist.
  unfold SecretResource_Read. rewrite Hstate. simpl. rewrite Hok, Hconn.
  rewrite run_Do, (perform_List X _ _ _ _ _ Hlist). simpl.
  eexists _, _. split; [reflexivity|]. simpl. auto.
Qed.

(** C1, as the code has it.  When the listing returns exactly one
    record, the state Read produces carries the secret content of that
    record, whatever it is and whatever the prior state held; with empty
    content the state holds the empty string. *)
Theorem Read_secret_is_remote_content (r : SecretResource) (c : Context)
    (req : resource.ReadRequest) (resp : resource.Response)
    (prior : SecretResourceModel) (w : World S)
    (secret0 : entities.SecretInfoReport) (s' : S) :
  conn r = Some c ->
  resource.ReadRequest_State req = Some prior ->
  diag.HasError (resource.Diagnostics resp) = false ->
  ext_List X c {| secrets.Filters := Some {[ "id" := [types.ValueString (Id prior)] ]} |}
    (engine w) = (inl [secret0], s') ->
  exists resp' w',
    run X (SecretResource_Read r req resp) w = Some (resp', w') /\
    Secret <$> resource.State resp' = Some (types.StringValue (entities.SecretData secret0)) /\
    (entities.SecretData secret0 = "" ->
     Secret <$> resource.State resp' = Some (types.StringValue "")).
Proof.
  intros Hconn Hstate Hok Hlist.
  rewrite (Read_found r c req resp prior w secret0 [] s' Hconn Hstate Hok Hlist).
  eexists _, _. split; [reflexivity|]. simpl. split; [done|]. by intros ->.
Qed.


End Read.

(** ** SecretResource.Create *)
Section Create.
Context {S : Type} (X : Externals S).

(** The options Create hands to the bindings for a plan. *)
Local Abbreviation options_of plan :=
  {| secrets.Name := types.ValueStringPointer (Name plan);
     secrets.Driver := types.ValueStringPointer (Driver plan);
     secrets.DriverOpts := (reflect.ElementsAs (DriverOpts plan) (Some ∅)).2;
     secrets.Labels := (reflect.ElementsAs (Labels plan) (Some ∅)).2 |}.

(** Create up to the remote call, when the plan decodes. *)
Lemma Create_calls (r : SecretResource) (c : Context) (req : resource.CreateRequest)
    (resp : resource.Response) (plan : SecretResourceModel) (w : World S) res (s' : S) :
  conn r = Some c ->
  resource.CreateRequest_Plan req = Some plan ->
  diag.HasError (resource.Diagnostics resp) = false ->
  diag.HasError (reflect.ElementsAs (DriverOpts plan) (Some ∅)).1 = false ->
  diag.HasError (reflect.ElementsAs (Labels plan) (Some ∅)).1 = false ->
  ext_Create X c (types.ValueString (Secret plan)) (options_of plan) (engine w) = (res, s') ->
  run X (SecretResource_Create r req resp) w =
  Some (match res with
        | inr err => resource.AddError resp "failed to add secret" (Error err)
        | inl createResp =>
            {| resource.State :=
                 Some (let data :=
                         set_Id (types.StringValue
                                   (entities.SecretCreateReport_ID createResp)) plan in
                       if types.IsNull (Driver plan)
                       then set_Driver (types.StringValue "file") data else data);
               resource.Diagnostics := resource.Diagnostics resp |}
        end,
        record (secrets_Create (Some c) (types.ValueString (Secret plan)) (options_of plan))
          s' w).
Proof.
  intros Hconn Hplan Hok Hopts Hlabels Hcreate.
  pose proof (ElementsAs_ok _ _ Hopts) as E1.
  pose proof (ElementsAs_ok _ _ Hlabels) as E2.
  unfold SecretResource_Create. rewrite Hplan. simpl. rewrite Hok.
  destruct (reflect.ElementsAs (DriverOpts plan) (Some ∅)) as [d1 o1].
  simpl in E1, Hcreate. subst d1. simpl. rewrite Hok.
  destruct (reflect.ElementsAs (Labels plan) (Some ∅)) as [d2 o2].
  simpl in E2, Hcreate. subst d2. simpl. rewrite Hok, Hconn.
  rewrite run_Do, (perform_Create X _ _ _ _ _ _ Hcreate).
  destruct resp as [st ds]. destruct res as [createResp|err]; reflexivity.
Qed.

(** When Create goes through (the plan decodes and the remote create
    call answers with a report), the state it sets has the identifier of
    the report; its driver is "file" when the planned driver is null, and
    the planned driver otherwise, an unknown driver included. *)
Theorem Create_sets_id_and_driver (r : SecretResource) (c : Context)
    (req : resource.CreateRequest) (resp : resource.Response)
    (plan : SecretResourceModel) (w : World S)
    (createResp : entities.SecretCreateReport) (s' : S) :
  conn r = Some c ->
  resource.CreateRequest_Plan req = Some plan ->
  diag.HasError (resource.Diagnostics resp) = false ->
  diag.HasError (reflect.ElementsAs (DriverOpts plan) (Some ∅)).1 = false ->
  diag.HasError (reflect.ElementsAs (Labels plan) (Some ∅)).1 = false ->
  ext_Create X c (types.ValueString (Secret plan)) (options_of plan) (engine w)
    = (inl createResp, s') ->
  exists resp' w' st,
    run X (SecretResource_Create r req resp) w = Some (resp', w') /\
    diag.HasError (resource.Diagnostics resp') = false /\
    resource.State resp' = Some st /\
    Id st = types.StringValue (entities.SecretCreateReport_ID createResp) /\
    (types.IsNull (Driver plan) = true -> Driver st = types.StringValue "file") /\
    (types.IsNull (Driver plan) = false -> Driver st = Driver plan).
Proof.
  intros Hconn Hplan Hok Hopts Hlabels Hcreate.
  rewrite (Create_calls r c req resp plan w _ s' Hconn Hplan Hok Hopts Hlabels Hcreate).
  eexists _, _, _. split; [reflexivity|]. simpl.
  split; [done|]. split; [reflexivity|].
  destruct (types.IsNull (Driver plan)); simpl;
    (split; [reflexivity|]); split; intros Hnull; try discriminate Hnull; reflexivity.
Qed.

End Create.

(** ** SecretResource.Delete *)
Section Delete.
Context {S : Type} (X : Externals S).

Lemma Delete_calls (r : SecretResource) (c : Context) (req : resource.DeleteRequest)
    (resp : resource.Response) (prior : SecretResourceModel) (w : World S) res (s' : S) :
  conn r = Some c ->
  resource.DeleteRequest_State req = Some prior ->
  diag.HasError (resource.Diagnostics resp) = false ->
  ext_Remove X c (types.ValueString (Id prior)) (engine w) = (res, s') ->
  run X (SecretResource_Delete r req resp) w =
  Some (match res with
        | Some err => resource.AddError resp "failed to delete secret" (Error err)
        | None => resp
        end,
        record (secrets_Remove (Some c) (types.ValueString (Id prior))) s' w).
Proof.
  intros Hconn Hstate Hok Hremove.
  unfold SecretResource_Delete. rewrite Hstate. simpl. rewrite Hok, Hconn.
  rewrite run_Do, (perform_Remove X _ _ _ _ _ Hremove).
  destruct resp as [st ds]. destruct res; reflexivity.
Qed.

(** C2, as the code has it.  When the remote remove call fails with a
    not-found error (status 404), Delete surfaces it: the response
    carries the error "failed to delete secret" with the message of the
    remote error. *)
Theorem Delete_not_found_is_reported (r : SecretResource) (c : Context)
    (req : resource.DeleteRequest) (resp : resource.Response)
    (prior : SecretResourceModel) (w : World S) (because message : string) (s' : S) :
  conn r = Some c ->
  resource.DeleteRequest_State req = Some prior ->
  diag.HasError (resource.Diagnostics resp) = false ->
  ext_Remove X c (types.ValueString (Id prior)) (engine w)
    = (Some (ErrorModel because message 404), s') ->
  exists resp' w',
    run X (SecretResource_Delete r req resp) w = Some (resp', w') /\
    diag.HasError (resource.Diagnostics resp') = true /\
    diag.NewErrorDiagnostic "failed to delete secret" message ∈ resource.Diagnostics resp'.
Proof.
  intros Hconn Hstate Hok Hremove.
  rewrite (Delete_calls r c req resp prior w _ s' Hconn Hstate Hok Hremove).
  eexists _, _. split; [reflexivity|]. simpl.
  split; [apply HasError_AddError | apply elem_of_AddError].
Qed.

End Delete.

(** ** SecretResource.Update *)
Section Update.
Context {S : Type} (X : Externals S).


End Update.

(** ** Failing remote calls *)
Section RemoteFailure.
Context {S : Type} (X : Externals S).

Lemma Read_list_fails (r : SecretResource) (c : Context) (req : resource.ReadRequest)
    (resp : resource.Response) (prior : SecretResourceModel) (w : World S)
    (err : error) (s' : S) :
  conn r = Some c ->
  resource.ReadRequest_State req = Some prior ->
  diag.HasError (resource.Diagnostics resp) = false ->
  ext_List X c {| secrets.Filters := Some {[ "id" := [types.ValueString (Id prior)] ]} |}
    (engine w) = (inr err, s') ->
  run X (SecretResource_Read r req resp) w =
  Some (resource.AddError resp "failed to get secret" (Error err),
        record (secrets_List (Some c)
                  {| secrets.Filters := Some {[ "id" := [types.ValueString (Id prior)] ]} |})
          s' w).
Proof.
  intros Hconn Hstate Hok Hlist.
  unfold SecretResource_Read. rewrite Hstate. simpl. rewrite Hok, Hconn.
  rewrite run_Do, (perform_List X _ _ _ _ _ Hlist).
  destruct resp as [st ds]. reflexivity.
Qed.

(** What a failed operation leaves behind: the state of the response is
    the one it came with, the diagnostics it came with are still there,
    and an error with the operation's summary and the text of the remote
    error has been added; for a failure the API reported, that text is the
    message of the report. *)
Local Abbreviation failed resp resp' summary err :=
  (resource.State resp' = resource.State resp /\
   diag.HasError (resource.Diagnostics resp') = true /\
   diag.NewErrorDiagnostic summary (Error err) ∈ resource.Diagnostics resp' /\
   (forall because message code,
       err = ErrorModel because message code ->
       diag.NewErrorDiagnostic summary message ∈ resource.Diagnostics resp') /\
   forall d, d ∈ resource.Diagnostics resp -> d ∈ resource.Diagnostics resp').

Lemma AddError_failed (resp : resource.Response) (summary : string) (err : error) :
  failed resp (resource.AddError resp summary (Error err)) summary err.
Proof.
  simpl. split; [done|]. split; [apply HasError_AddError|].
  split; [apply elem_of_AddError|].
  split; [intros because message code ->; apply elem_of_AddError|].
  intros d. apply AddError_keeps.
Qed.

(** C8. When the remote call of Create, Read or Delete fails, the
    operation ends there: it has made that one call and no other, the
    response carries an error with the text of the remote error (the
    message, when the API reported the failure), and the state in the
    response is exactly the state it held before. *)
Theorem remote_failure_reported_state_kept :
  (forall (r : SecretResource) (c : Context) (req : resource.CreateRequest)
          (resp : resource.Response) (plan : SecretResourceModel) (w : World S)
          (err : error) (s' : S),
      conn r = Some c ->
      resource.CreateRequest_Plan req = Some plan ->
      diag.HasError (resource.Diagnostics resp) = false ->
      diag.HasError (reflect.ElementsAs (DriverOpts plan) (Some ∅)).1 = false ->
      diag.HasError (reflect.ElementsAs (Labels plan) (Some ∅)).1 = false ->
      ext_Create X c (types.ValueString (Secret plan))
        {| secrets.Name := types.ValueStringPointer (Name plan);
           secrets.Driver := types.ValueStringPointer (Driver plan);
           secrets.DriverOpts := (reflect.ElementsAs (DriverOpts plan) (Some ∅)).2;
           secrets.Labels := (reflect.ElementsAs (Labels plan) (Some ∅)).2 |}
        (engine w) = (inr err, s') ->
      exists resp' w' call,
        run X (SecretResource_Create r req resp) w = Some (resp', w') /\
        failed resp resp' "failed to add secret" err /\
        trace w' = (trace w ++ [call])%list) /\
  (forall (r : SecretResource) (c : Context) (req : resource.ReadRequest)
          (resp : resource.Response) (prior : SecretResourceModel) (w : World S)
          (err : error) (s' : S),
      conn r = Some c ->
      resource.ReadRequest_State req = Some prior ->
      diag.HasError (resource.Diagnostics resp) = false ->
      ext_List X c {| secrets.Filters := Some {[ "id" := [types.ValueString (Id prior)] ]} |}
        (engine w) = (inr err, s') ->
      exists resp' w' call,
        run X (SecretResource_Read r req resp) w = Some (resp', w') /\
        failed resp resp' "failed to get secret" err /\
        trace w' = (trace w ++ [call])%list) /\
  (forall (r : SecretResource) (c : Context) (req : resource.DeleteRequest)
          (resp : resource.Response) (prior : SecretResourceModel) (w : World S)
          (err : error) (s' : S),
      conn r = Some c ->
      resource.DeleteRequest_State req = Some prior ->
      diag.HasError (resource.Diagnostics resp) = false ->
      ext_Remove X c (types.ValueString (Id prior)) (engine w) = (Some err, s') ->
      exists resp' w' call,
        run X (SecretResource_Delete r req resp) w = Some (resp', w') /\
        failed resp resp' "failed to delete secret" err /\
        trace w' = (trace w ++ [call])%list).
Proof.
  split; [|split].
  - intros r c req resp plan w err s' Hconn Hplan Hok Hopts Hlabels Hcreate.
    rewrite (Create_calls X r c req resp plan w _ s' Hconn Hplan Hok Hopts Hlabels Hcreate).
    eexists _, _, _. split; [reflexivity|]. split; [apply AddError_failed | reflexivity].
  - intros r c req resp prior w err s' Hconn Hstate Hok Hlist.
    rewrite (Read_list_fails r c req resp prior w err s' Hconn Hstate Hok Hlist).
    eexists _, _, _. split; [reflexivity|]. split; [apply AddError_failed | reflexivity].
  - intros r c req resp prior w err s' Hconn Hstate Hok Hremove.
    rewrite (Delete_calls X r c req resp prior w _ s' Hconn Hstate Hok Hremove).
    eexists _, _, _. split; [reflexivity|]. split; [apply AddError_failed | reflexivity].
Qed.

End RemoteFailure.

(** ** PodmanProvider.Configure *)
Section ProviderConfigure.
Context {S : Type} (X : Externals S).

(** C6. With a configuration whose endpoint is null: when
    [XDG_RUNTIME_DIR] is set to [d], the one connection Configure asks
    for is to unix: followed by [d] and /podman/podman.sock; when it is
    not set, Configure ends with the error "default endpoint cannot be
    used", has asked for no connection and hands over no data. *)
Theorem Configure_default_endpoint (req : provider.ConfigureRequest)
    (resp : provider.ConfigureResponse) (cfg : PodmanProviderModel) (w : World S) :
  provider.Config req = Some cfg ->
  types.IsNull (Endpoint cfg) = true ->
  diag.HasError (provider.Diagnostics resp) = false ->
  (forall d : string,
      ext_LookupEnv X "XDG_RUNTIME_DIR" = Some d ->
      exists resp' w',
        run X (PodmanProvider_Configure req resp) w = Some (resp', w') /\
        trace w' = (trace w ++
                    [Called (os_LookupEnv "XDG_RUNTIME_DIR");
                     Called (bindings_NewConnection
                               ("unix:" +:+ d +:+ "/podman/podman.sock"))])%list) /\
  (ext_LookupEnv X "XDG_RUNTIME_DIR" = None ->
   exists resp' w',
     run X (PodmanProvider_Configure req resp) w = Some (resp', w') /\
     diag.HasError (provider.Diagnostics resp') = true /\
     diag.NewErrorDiagnostic "default endpoint cannot be used"
       "XDG_RUNTIME_DIR env var isn't set" ∈ provider.Diagnostics resp' /\
     trace w' = (trace w ++ [Called (os_LookupEnv "XDG_RUNTIME_DIR")])%list /\
     provider.ResourceData resp' = provider.ResourceData resp /\
     provider.DataSourceData resp' = provider.DataSourceData resp).
Proof.
  intros Hcfg Hnull Hok.
  unfold PodmanProvider_Configure. rewrite Hcfg. simpl. rewrite Hok, Hnull.
  split.
  - intros d Henv. rewrite run_Do. simpl. rewrite Henv. rewrite run_Do. simpl.
    destruct (ext_NewConnection X _ _); eexists _, _; (split; [reflexivity|]);
      simpl; by rewrite <- app_assoc.
  - intros Henv. rewrite run_Do. simpl. rewrite Henv.
    eexists _, _. split; [reflexivity|]. simpl.
    split; [apply HasError_AddError|]. split; [apply elem_of_AddError|]. auto.
Qed.

End ProviderConfigure.

(** ** SecretResource.Configure *)

(** C10. With [nil] provider data Configure changes neither the resource
    nor the response; and whenever the diagnostics of the response differ
    after Configure, the provider data was a value that is not a
    connection handle. *)
Theorem Configure_nil_provider_data (r : SecretResource)
    (req : resource.ConfigureRequest) (resp : resource.ConfigureResponse) :
  (resource.ProviderData req = any_nil ->
   SecretResource_Configure r req resp = (r, resp)) /\
  (resource.ConfigureResponse_Diagnostics (SecretResource_Configure r req resp).2
     <> resource.ConfigureResponse_Diagnostics resp ->
   exists T, resource.ProviderData req = any_other T).
Proof.
  unfold SecretResource_Configure. split.
  - by intros ->.
  - destruct (resource.ProviderData req) as [|c|T]; simpl; intros Hne; [done|done|eauto].
Qed.

(** * The handlers on concrete inputs

    All runs below are against the simulated engine [Sim]. *)

(** The state of the secret abc123 is read against an engine that has no
    secret. *)
Lemma Read_absent_removes_state_run :
  exists resp' w',
    run (Sim.externals None)
      (SecretResource_Read Sim.r {| resource.ReadRequest_State := Some Sim.state_foo |}
         Sim.prior_resp)
      (Sim.world Sim.engine_empty) = Some (resp', w') /\
    resource.State resp' = None /\
    resource.Diagnostics resp' = resource.Diagnostics Sim.prior_resp /\
    diag.HasError (resource.Diagnostics resp') = false.
Proof.
  apply (Read_absent_removes_state (Sim.externals None) Sim.r Sim.sock
           {| resource.ReadRequest_State := Some Sim.state_foo |} Sim.prior_resp
           Sim.state_foo (Sim.world Sim.engine_empty) Sim.engine_empty);
    reflexivity.
Defined.

(** The state of the secret abc123, which holds the content bar, is read
    against an engine that has the record and returns no content for it. *)
Lemma Read_secret_is_remote_content_run :
  exists resp' w',
    run (Sim.externals None)
      (SecretResource_Read Sim.r {| resource.ReadRequest_State := Some Sim.state_foo |}
         Sim.prior_resp)
      (Sim.world (Sim.engine_foo "")) = Some (resp', w') /\
    Secret <$> resource.State resp' = Some (types.StringValue "").
Proof.
  destruct (Read_secret_is_remote_content (Sim.externals None) Sim.r Sim.sock
              {| resource.ReadRequest_State := Some Sim.state_foo |} Sim.prior_resp
              Sim.state_foo (Sim.world (Sim.engine_foo "")) (Sim.info "abc123" "foo" "")
              (Sim.engine_foo "") eq_refl eq_refl eq_refl eq_refl)
    as (resp' & w' & Hrun & _ & Hempty).
  exists resp', w'. split; [exact Hrun | exact (Hempty eq_refl)].
Defined.

(** C1 fails on the code.  The prior state holds the secret bar; the
    listing returns exactly one record, with empty secret content; the
    state Read produces holds the empty string, not bar. *)
Lemma Read_keeps_secret_counterexample :
  exists resp' w',
    Secret Sim.state_foo = types.StringValue "bar" /\
    ext_List (Sim.externals None) Sim.sock
      {| secrets.Filters := Some {[ "id" := [types.ValueString (Id Sim.state_foo)] ]} |}
      (Sim.engine_foo "") = (inl [Sim.info "abc123" "foo" ""], Sim.engine_foo "") /\
    entities.SecretData (Sim.info "abc123" "foo" "") = "" /\
    run (Sim.externals None)
      (SecretResource_Read Sim.r {| resource.ReadRequest_State := Some Sim.state_foo |}
         Sim.prior_resp)
      (Sim.world (Sim.engine_foo "")) = Some (resp', w') /\
    Secret <$> resource.State resp' = Some (types.StringValue "") /\
    Secret <$> resource.State resp' <> Some (Secret Sim.state_foo).
Proof.
  eexists _, _. repeat split; try reflexivity. discriminate.
Qed.



(** C3 fails on the code.  The engine returns the content bar for the
    secret; Read writes one log line at error level, and the line
    contains bar. *)
Theorem Read_logs_secret_content :
  exists resp' w' entry,
    run (Sim.externals None)
      (SecretResource_Read Sim.r {| resource.ReadRequest_State := Some Sim.state_foo |}
         Sim.prior_resp)
      (Sim.world (Sim.engine_foo "bar")) = Some (resp', w') /\
    log w' = [entry] /\
    tflog.EntryLevel entry = tflog.LevelError /\
    tflog.Message entry =
      "secretdata: " +:+ String strconv.dquote ("bar" +:+ String strconv.dquote "") /\
    Secret <$> resource.State resp' = Some (types.StringValue "bar") /\
    Contains (tflog.Message entry) "bar" = true.
Proof.
  eexists _, _, _. repeat split; reflexivity.
Qed.

(** The example configuration, without a driver, is created on an engine
    that hands out abc123. *)
Lemma Create_sets_id_and_driver_run :
  exists resp' w' st,
    run (Sim.externals None)
      (SecretResource_Create Sim.r
         {| resource.CreateRequest_Plan := Some (Sim.plan_foo types.StringNull) |}
         Sim.fresh_resp)
      (Sim.world Sim.engine_empty) = Some (resp', w') /\
    resource.State resp' = Some st /\
    Id st = types.StringValue "abc123" /\
    Driver st = types.StringValue "file".
Proof.
  destruct (Create_sets_id_and_driver (Sim.externals None) Sim.r Sim.sock
              {| resource.CreateRequest_Plan := Some (Sim.plan_foo types.StringNull) |}
              Sim.fresh_resp (Sim.plan_foo types.StringNull) (Sim.world Sim.engine_empty)
              {| entities.SecretCreateReport_ID := "abc123" |}
              (Sim.Create Sim.sock "bar"
                 {| secrets.Name := Some "foo"; secrets.Driver := None;
                    secrets.DriverOpts := None;
                    secrets.Labels := Some {[ "foo" := "bar" ]} |} Sim.engine_empty).2
              eq_refl eq_refl eq_refl eq_refl eq_refl eq_refl)
    as (resp' & w' & st & Hrun & _ & Hst & Hid & Hnull & _).
  exists resp', w', st. repeat split; [exact Hrun | exact Hst | exact Hid | exact (Hnull eq_refl)].
Defined.

(** The state of the secret abc123 is deleted on an engine that has no
    such secret. *)
Lemma Delete_not_found_is_reported_run :
  exists resp' w',
    run (Sim.externals None)
      (SecretResource_Delete Sim.r {| resource.DeleteRequest_State := Some Sim.state_foo |}
         Sim.prior_resp)
      (Sim.world Sim.engine_empty) = Some (resp', w') /\
    diag.HasError (resource.Diagnostics resp') = true /\
    diag.NewErrorDiagnostic "failed to delete secret"
      "no secret with name or id abc123: no such secret"
      ∈ resource.Diagnostics resp'.
Proof.
  apply (Delete_not_found_is_reported (Sim.externals None) Sim.r Sim.sock
           {| resource.DeleteRequest_State := Some Sim.state_foo |} Sim.prior_resp
           Sim.state_foo (Sim.world Sim.engine_empty) "no such secret"
           "no secret with name or id abc123: no such secret" Sim.engine_empty);
    reflexivity.
Defined.

(** C2 fails on the code.  No secret abc123 exists; the remove call is
    answered with the not-found error (status 404); Delete returns with an
    error in the diagnostics. *)
Lemma Delete_absent_counterexample :
  exists resp' w',
    List.filter (Sim.named "abc123") (Sim.store Sim.engine_empty) = [] /\
    ext_Remove (Sim.externals None) Sim.sock (types.ValueString (Id Sim.state_foo))
      Sim.engine_empty
      = (Some (ErrorModel "no such secret"
                 "no secret with name or id abc123: no such secret" 404),
         Sim.engine_empty) /\
    run (Sim.externals None)
      (SecretResource_Delete Sim.r {| resource.DeleteRequest_State := Some Sim.state_foo |}
         Sim.prior_resp)
      (Sim.world Sim.engine_empty) = Some (resp', w') /\
    diag.HasError (resource.Diagnostics resp') = true /\
    resource.Diagnostics resp' =
      [diag.NewErrorDiagnostic "failed to delete secret"
         "no secret with name or id abc123: no such secret"].
Proof.
  eexists _, _. repeat split; reflexivity.
Qed.



(** C5 fails on the code.  The schema makes driver a computed attribute,
    so a configuration without a driver is planned with an unknown driver.
    Create on that plan, on an engine that hands out abc123, sends the
    empty string as the driver and sets a state whose driver is still
    unknown, not "file". *)
Theorem Create_unset_driver_stays_unknown :
  exists resp' w' st attribute,
    SecretResource_Schema !! "driver" = Some attribute /\
    MarkComputedNilsAsUnknown attribute types.StringNull = types.StringUnknown /\
    run (Sim.externals None)
      (SecretResource_Create Sim.r
         {| resource.CreateRequest_Plan := Some (Sim.plan_foo types.StringUnknown) |}
         Sim.fresh_resp)
      (Sim.world Sim.engine_empty) = Some (resp', w') /\
    trace w' = [Called (secrets_Create (Some Sim.sock) "bar"
                  {| secrets.Name := Some "foo"; secrets.Driver := Some "";
                     secrets.DriverOpts := None;
                     secrets.Labels := Some {[ "foo" := "bar" ]} |})] /\
    resource.Diagnostics resp' = [] /\
    resource.State resp' = Some st /\
    Id st = types.StringValue "abc123" /\
    Driver st = types.StringUnknown /\
    Driver st <> types.StringValue "file".
Proof.
  eexists _, _, _, _. repeat split; try reflexivity. discriminate.
Qed.

(** Create on an engine that has no identifier left (an API failure),
    Read against an engine that is down, and Delete of a secret the engine
    does not have (an API failure). *)
Lemma remote_failure_reported_state_kept_run :
  (exists resp' w' call,
      run (Sim.externals None)
        (SecretResource_Create Sim.r
           {| resource.CreateRequest_Plan := Some (Sim.plan_foo types.StringNull) |}
           Sim.fresh_resp)
        (Sim.world (Sim.engine_foo "")) = Some (resp', w') /\
      (resource.State resp' = None /\
       diag.HasError (resource.Diagnostics resp') = true /\
       diag.NewErrorDiagnostic "failed to add secret" "creating secret: no identifier left"
         ∈ resource.Diagnostics resp') /\
      trace w' = [call]) /\
  (exists resp' w' call,
      run (Sim.externals None)
        (SecretResource_Read Sim.r {| resource.ReadRequest_State := Some Sim.state_foo |}
           Sim.prior_resp)
        (Sim.world Sim.engine_down) = Some (resp', w') /\
      (resource.State resp' = Some Sim.state_foo /\
       diag.HasError (resource.Diagnostics resp') = true /\
       diag.NewErrorDiagnostic "failed to get secret" "connection refused"
         ∈ resource.Diagnostics resp') /\
      trace w' = [call]) /\
  (exists resp' w' call,
      run (Sim.externals None)
        (SecretResource_Delete Sim.r {| resource.DeleteRequest_State := Some Sim.state_foo |}
           Sim.prior_resp)
        (Sim.world Sim.engine_empty) = Some (resp', w') /\
      (resource.State resp' = Some Sim.state_foo /\
       diag.HasError (resource.Diagnostics resp') = true /\
       diag.NewErrorDiagnostic "failed to delete secret"
         "no secret with name or id abc123: no such secret"
         ∈ resource.Diagnostics resp') /\
      trace w' = [call]).
Proof.
  destruct (remote_failure_reported_state_kept (Sim.externals None))
    as (Hcreate & Hread & Hdelete).
  split; [|split].
  - destruct (Hcreate Sim.r Sim.sock
                {| resource.CreateRequest_Plan := Some (Sim.plan_foo types.StringNull) |}
                Sim.fresh_resp (Sim.plan_foo types.StringNull) (Sim.world (Sim.engine_foo ""))
                (ErrorModel "no identifier left" "creating secret: no identifier left" 500)
                (Sim.engine_foo "") eq_refl eq_refl eq_refl eq_refl eq_refl eq_refl)
      as (resp' & w' & call & Hrun & (Hst & Herr & _ & Hmsg & _) & Htrace).
    exists resp', w', call.
    repeat split; [exact Hrun|exact Hst|exact Herr|exact (Hmsg _ _ _ eq_refl)|exact Htrace].
  - destruct (Hread Sim.r Sim.sock {| resource.ReadRequest_State := Some Sim.state_foo |}
                Sim.prior_resp Sim.state_foo (Sim.world Sim.engine_down)
                Sim.unreachable Sim.engine_down eq_refl eq_refl eq_refl eq_refl)
      as (resp' & w' & call & Hrun & (Hst & Herr & Hdetail & _) & Htrace).
    exists resp', w', call.
    repeat split; [exact Hrun|exact Hst|exact Herr|exact Hdetail|exact Htrace].
  - destruct (Hdelete Sim.r Sim.sock {| resource.DeleteRequest_State := Some Sim.state_foo |}
                Sim.prior_resp Sim.state_foo (Sim.world Sim.engine_empty)
                (Sim.noSuchSecret "abc123") Sim.engine_empty
                eq_refl eq_refl eq_refl eq_refl)
      as (resp' & w' & call & Hrun & (Hst & Herr & _ & Hmsg & _) & Htrace).
    exists resp', w', call.
    repeat split; [exact Hrun|exact Hst|exact Herr|exact (Hmsg _ _ _ eq_refl)|exact Htrace].
Defined.

(** The provider is configured with an empty block, once with
    [XDG_RUNTIME_DIR] set to /run/user/1000 and once without it. *)
Lemma Configure_default_endpoint_run :
  (exists resp' w',
      run (Sim.externals (Some "/run/user/1000"))
        (PodmanProvider_Configure {| provider.Config := Some zeroPodmanProviderModel |}
           {| provider.Diagnostics := []; provider.ResourceData := any_nil;
              provider.DataSourceData := any_nil |})
        (Sim.world Sim.engine_empty) = Some (resp', w') /\
      trace w' = [Called (os_LookupEnv "XDG_RUNTIME_DIR");
                  Called (bindings_NewConnection "unix:/run/user/1000/podman/podman.sock")]) /\
  (exists resp' w',
      run (Sim.externals None)
        (PodmanProvider_Configure {| provider.Config := Some zeroPodmanProviderModel |}
           {| provider.Diagnostics := []; provider.ResourceData := any_nil;
              provider.DataSourceData := any_nil |})
        (Sim.world Sim.engine_empty) = Some (resp', w') /\
      diag.HasError (provider.Diagnostics resp') = true /\
      diag.NewErrorDiagnostic "default endpoint cannot be used"
        "XDG_RUNTIME_DIR env var isn't set" ∈ provider.Diagnostics resp' /\
      trace w' = [Called (os_LookupEnv "XDG_RUNTIME_DIR")] /\
      provider.ResourceData resp' = any_nil /\
      provider.DataSourceData resp' = any_nil).
Proof.
  split.
  - apply (proj1 (Configure_default_endpoint (Sim.externals (Some "/run/user/1000"))
                    {| provider.Config := Some zeroPodmanProviderModel |}
                    {| provider.Diagnostics := []; provider.ResourceData := any_nil;
                       provider.DataSourceData := any_nil |}
                    zeroPodmanProviderModel (Sim.world Sim.engine_empty)
                    eq_refl eq_refl eq_refl) "/run/user/1000").
    reflexivity.
  - apply (proj2 (Configure_default_endpoint (Sim.externals None)
                    {| provider.Config := Some zeroPodmanProviderModel |}
                    {| provider.Diagnostics := []; provider.ResourceData := any_nil;
                       provider.DataSourceData := any_nil |}
                    zeroPodmanProviderModel (Sim.world Sim.engine_empty)
                    eq_refl eq_refl eq_refl)).
    reflexivity.
Defined.

(** A configured resource is configured again, once with no provider data
    and once with a string in place of the connection. *)
Lemma Configure_nil_provider_data_run :
  SecretResource_Configure Sim.r {| resource.ProviderData := any_nil |}
    {| resource.ConfigureResponse_Diagnostics := [] |}
  = (Sim.r, {| resource.ConfigureResponse_Diagnostics := [] |}) /\
  exists T, resource.ProviderData {| resource.ProviderData := any_other "string" |}
            = any_other T.
Proof.
  split.
  - apply (proj1 (Configure_nil_provider_data Sim.r {| resource.ProviderData := any_nil |}
                    {| resource.ConfigureResponse_Diagnostics := [] |})).
    reflexivity.
  - apply (proj2 (Configure_nil_provider_data Sim.r
                    {| resource.ProviderData := any_other "string" |}
                    {| resource.ConfigureResponse_Diagnostics := [] |})).
    simpl. discriminate.
Defined.

(** * Further properties of the package *)

(** ** Text and diagnostics *)

Lemma Append_keeps (ds ins : diag.Diagnostics) (d : diag.Diagnostic) :
  d ∈ ds -> d ∈ diag.Append ds ins.
Proof.
  revert ds. induction ins as [|i ins IH]; intros ds Hin; simpl; [done|].
  destruct (diag.Contains ds i); apply IH; [done|]. apply elem_of_app. by left.
Qed.

Lemma prefix_append (s t : string) : String.prefix s (s +:+ t) = true.
Proof.
  induction s as [|c s IH]; simpl; [by destruct t|].
  destruct (ascii_dec c c); [exact IH|done].
Qed.

Lemma Contains_here (s t : string) : Contains (s +:+ t) s = true.
Proof.
  destruct s as [|c s]; simpl.
  - by destruct t.
  - pose proof (prefix_append (String c s) t) as H. simpl in H. by rewrite H.
Qed.

Lemma Contains_after (a t s : string) : Contains t s = true -> Contains (a +:+ t) s = true.
Proof.
  intros H. induction a as [|c a IH]; simpl; [done|].
  rewrite IH. apply orb_true_r.
Qed.

Lemma appendEscapedRune_plain (c : ascii) :
  plainByte c = true -> strconv.appendEscapedRune c = String c "".
Proof.
  unfold plainByte, strconv.appendEscapedRune. cbv zeta.
  destruct (N_of_ascii c =? 34)%N, (N_of_ascii c =? 92)%N,
    (32 <=? N_of_ascii c)%N, (N_of_ascii c <? 127)%N; simpl; intros H;
    try discriminate H; reflexivity.
Qed.

(** Plain text is quoted by putting it between two double quotes. *)
Lemma Quote_plain (s : string) :
  plain s = true -> strconv.Quote s = String strconv.dquote (s +:+ String strconv.dquote "").
Proof.
  intros H. unfold strconv.Quote. f_equal.
  induction s as [|c s IH]; simpl; [done|].
  simpl in H. apply andb_true_iff in H as [Hc Hs].
  by rewrite (appendEscapedRune_plain c Hc), (IH Hs).
Qed.

Lemma Contains_Quote_plain (a s : string) :
  plain s = true -> Contains (a +:+ strconv.Quote s) s = true.
Proof.
  intros H. rewrite (Quote_plain s H). apply Contains_after.
  change (String strconv.dquote (s +:+ String strconv.dquote ""))
    with (String strconv.dquote "" +:+ (s +:+ String strconv.dquote "")).
  apply Contains_after, Contains_here.
Qed.

(** ** More on Read *)
Section ReadMore.
Context {S : Type} (X : Externals S).

(** Read up to and including the listing, whatever the listing answers. *)
Lemma Read_calls (r : SecretResource) (c : Context) (req : resource.ReadRequest)
    (resp : resource.Response) (prior : SecretResourceModel) (w : World S) res (s' : S) :
  conn r = Some c ->
  resource.ReadRequest_State req = Some prior ->
  diag.HasError (resource.Diagnostics resp) = false ->
  ext_List X c {| secrets.Filters := Some {[ "id" := [types.ValueString (Id prior)] ]} |}
    (engine w) = (res, s') ->
  exists resp' w',
    run X (SecretResource_Read r req resp) w = Some (resp', w') /\
    trace w' = (trace w ++ [Called (secrets_List (Some c)
                  {| secrets.Filters := Some {[ "id" := [types.ValueString (Id prior)] ]} |})])%list /\
    engine w' = s' /\
    match res with
    | inl (_ :: _) =>
        Id <$> resource.State resp' = Some (Id prior) /\
        length (log w') = Datatypes.S (length (log w))
    | inl [] => resource.State resp' = None /\ log w' = log w
    | inr _ => resource.State resp' = resource.State resp /\ log w' = log w
    end.
Proof.
  intros Hconn Hstate Hok Hlist.
  destruct res as [[|secret0 rest]|err].
  - unfold SecretResource_Read. rewrite Hstate. simpl. rewrite Hok, Hconn.
    rewrite run_Do, (perform_List X _ _ _ _ _ Hlist). simpl.
    eexists _, _. split; [reflexivity|]. simpl. auto.
  - rewrite (Read_found X r c req resp prior w secret0 rest s' Hconn Hstate Hok Hlist).
    eexists _, _. split; [reflexivity|]. simpl. repeat split.
    rewrite length_app. simpl. lia.
  - rewrite (Read_list_fails X r c req resp prior w err s' Hconn Hstate Hok Hlist).
    eexists _, _. split; [reflexivity|]. simpl. auto.
Qed.

(** X1. Read makes exactly one call, the listing by the identifier of
    the prior state, whatever the listing answers.  A record found keeps
    the identifier of the prior state and costs one log line; no record
    removes the state; a failure leaves the state of the response as it
    was; the last two write nothing to the log. *)
Theorem Read_one_call_id_kept (r : SecretResource) (c : Context) (req : resource.ReadRequest)
    (resp : resource.Response) (prior : SecretResourceModel) (w : World S) res (s' : S) :
  conn r = Some c ->
  resource.ReadRequest_State req = Some prior ->
  diag.HasError (resource.Diagnostics resp) = false ->
  ext_List X c {| secrets.Filters := Some {[ "id" := [types.ValueString (Id prior)] ]} |}
    (engine w) = (res, s') ->
  exists resp' w',
    run X (SecretResource_Read r req resp) w = Some (resp', w') /\
    trace w' = (trace w ++ [Called (secrets_List (Some c)
                  {| secrets.Filters := Some {[ "id" := [types.ValueString (Id prior)] ]} |})])%list /\
    engine w' = s' /\
    match res with
    | inl (_ :: _) =>
        Id <$> resource.State resp' = Some (Id prior) /\
        length (log w') = Datatypes.S (length (log w))
    | inl [] => resource.State resp' = None /\ log w' = log w
    | inr _ => resource.State resp' = resource.State resp /\ log w' = log w
    end.
Proof. apply Read_calls. Qed.

(** X2. Of the prior state Read uses the identifier and nothing else:
    two prior states with the same identifier give the same response and
    the same world, in every case. *)
Theorem Read_uses_only_id (r : SecretResource) (resp : resource.Response)
    (prior1 prior2 : SecretResourceModel) (w : World S) :
  Id prior1 = Id prior2 ->
  run X (SecretResource_Read r {| resource.ReadRequest_State := Some prior1 |} resp) w =
  run X (SecretResource_Read r {| resource.ReadRequest_State := Some prior2 |} resp) w.
Proof.
  intros Hid. unfold SecretResource_Read. simpl. rewrite Hid.
  destruct (diag.HasError (resource.Diagnostics resp)); [reflexivity|].
  rewrite !run_Do.
  destruct (perform X _ w) as [[[[|secret0 rest]|err] w']|]; try reflexivity.
  destruct (entities.Options _), (entities.Labels _); simpl;
    unfold set_Secret, set_Labels, set_DriverOpts, set_Driver, set_Name; simpl;
    rewrite Hid; reflexivity.
Qed.

(** X3. Whenever Read finds a record whose secret content is plain text
    (printable ASCII without double quote and backslash), the log gains an
    error-level line that contains the content as it is. *)
Theorem Read_logs_plain_content (r : SecretResource) (c : Context)
    (req : resource.ReadRequest) (resp : resource.Response)
    (prior : SecretResourceModel) (w : World S)
    (secret0 : entities.SecretInfoReport) (rest : list entities.SecretInfoReport) (s' : S) :
  conn r = Some c ->
  resource.ReadRequest_State req = Some prior ->
  diag.HasError (resource.Diagnostics resp) = false ->
  ext_List X c {| secrets.Filters := Some {[ "id" := [types.ValueString (Id prior)] ]} |}
    (engine w) = (inl (secret0 :: rest), s') ->
  plain (entities.SecretData secret0) = true ->
  exists resp' w' entry,
    run X (SecretResource_Read r req resp) w = Some (resp', w') /\
    log w' = (log w ++ [entry])%list /\
    tflog.EntryLevel entry = tflog.LevelError /\
    Contains (tflog.Message entry) (entities.SecretData secret0) = true.
Proof.
  intros Hconn Hstate Hok Hlist Hplain.
  rewrite (Read_found X r c req resp prior w secret0 rest s' Hconn Hstate Hok Hlist).
  eexists _, _, _. split; [reflexivity|]. split; [reflexivity|].
  split; [reflexivity|]. apply (Contains_Quote_plain "secretdata: " _ Hplain).
Qed.

(** X4. Reading twice is stable: when the listing gives the same answer
    again, a second Read from the state the first one produced sets the
    same state. *)
Theorem Read_again_same_state (r : SecretResource) (c : Context)
    (resp1 resp2 : resource.Response) (prior : SecretResourceModel) (w1 w2 : World S)
    (secret0 : entities.SecretInfoReport) (rest : list entities.SecretInfoReport) (s1 s2 : S) :
  conn r = Some c ->
  diag.HasError (resource.Diagnostics resp1) = false ->
  diag.HasError (resource.Diagnostics resp2) = false ->
  ext_List X c {| secrets.Filters := Some {[ "id" := [types.ValueString (Id prior)] ]} |}
    (engine w1) = (inl (secret0 :: rest), s1) ->
  ext_List X c {| secrets.Filters := Some {[ "id" := [types.ValueString (Id prior)] ]} |}
    (engine w2) = (inl (secret0 :: rest), s2) ->
  exists resp1' w1' resp2' w2',
    run X (SecretResource_Read r {| resource.ReadRequest_State := Some prior |} resp1) w1
      = Some (resp1', w1') /\
    run X (SecretResource_Read r {| resource.ReadRequest_State := resource.State resp1' |}
             resp2) w2 = Some (resp2', w2') /\
    is_Some (resource.State resp1') /\
    resource.State resp2' = resource.State resp1'.
Proof.
  intros Hconn Hok1 Hok2 Hlist1 Hlist2.
  rewrite (Read_found X r c {| resource.ReadRequest_State := Some prior |} resp1 prior w1
             secret0 rest s1 Hconn eq_refl Hok1 Hlist1).
  eexists _, _, _, _. split; [reflexivity|]. simpl.
  split; [eapply Read_found; [exact Hconn|reflexivity|exact Hok2|exact Hlist2]|].
  simpl. split; [by eexists|]. reflexivity.
Qed.

End ReadMore.

(** ** More on Create and Delete *)
Section CreateDeleteMore.
Context {S : Type} (X : Externals S).

(** X5. When the plan decodes, Create makes exactly one remote call,
    whatever it answers, and writes nothing to the log.  The call carries
    the planned secret as content and the planned name; it carries a
    driver exactly when the planned driver is not null. *)
Theorem Create_one_call (r : SecretResource) (c : Context) (req : resource.CreateRequest)
    (resp : resource.Response) (plan : SecretResourceModel) (w : World S) res (s' : S) :
  conn r = Some c ->
  resource.CreateRequest_Plan req = Some plan ->
  diag.HasError (resource.Diagnostics resp) = false ->
  diag.HasError (reflect.ElementsAs (DriverOpts plan) (Some ∅)).1 = false ->
  diag.HasError (reflect.ElementsAs (Labels plan) (Some ∅)).1 = false ->
  ext_Create X c (types.ValueString (Secret plan))
    {| secrets.Name := types.ValueStringPointer (Name plan);
       secrets.Driver := types.ValueStringPointer (Driver plan);
       secrets.DriverOpts := (reflect.ElementsAs (DriverOpts plan) (Some ∅)).2;
       secrets.Labels := (reflect.ElementsAs (Labels plan) (Some ∅)).2 |}
    (engine w) = (res, s') ->
  exists resp' w' options,
    run X (SecretResource_Create r req resp) w = Some (resp', w') /\
    trace w' = (trace w ++
                [Called (secrets_Create (Some c) (types.ValueString (Secret plan)) options)])%list /\
    secrets.Name options = types.ValueStringPointer (Name plan) /\
    (secrets.Driver options = None <-> Driver plan = types.StringNull) /\
    engine w' = s' /\
    log w' = log w.
Proof.
  intros Hconn Hplan Hok Hopts Hlabels Hcreate.
  rewrite (Create_calls X r c req resp plan w _ s' Hconn Hplan Hok Hopts Hlabels Hcreate).
  eexists _, _, _. split; [reflexivity|]. simpl. split; [reflexivity|].
  split; [reflexivity|]. split; [|done].
  destruct (Driver plan); simpl; split; intros H; done.
Qed.

(** X6. Of the plan Create changes the identifier and, when it is null,
    the driver; name, driver options, labels and secret reach the state as
    they were planned. *)
Theorem Create_keeps_planned_fields (r : SecretResource) (c : Context)
    (req : resource.CreateRequest) (resp : resource.Response)
    (plan : SecretResourceModel) (w : World S)
    (createResp : entities.SecretCreateReport) (s' : S) :
  conn r = Some c ->
  resource.CreateRequest_Plan req = Some plan ->
  diag.HasError (resource.Diagnostics resp) = false ->
  diag.HasError (reflect.ElementsAs (DriverOpts plan) (Some ∅)).1 = false ->
  diag.HasError (reflect.ElementsAs (Labels plan) (Some ∅)).1 = false ->
  ext_Create X c (types.ValueString (Secret plan))
    {| secrets.Name := types.ValueStringPointer (Name plan);
       secrets.Driver := types.ValueStringPointer (Driver plan);
       secrets.DriverOpts := (reflect.ElementsAs (DriverOpts plan) (Some ∅)).2;
       secrets.Labels := (reflect.ElementsAs (Labels plan) (Some ∅)).2 |}
    (engine w) = (inl createResp, s') ->
  exists resp' w' st,
    run X (SecretResource_Create r req resp) w = Some (resp', w') /\
    resource.State resp' = Some st /\
    Name st = Name plan /\ DriverOpts st = DriverOpts plan /\
    Labels st = Labels plan /\ Secret st = Secret plan /\
    resource.Diagnostics resp' = resource.Diagnostics resp.
Proof.
  intros Hconn Hplan Hok Hopts Hlabels Hcreate.
  rewrite (Create_calls X r c req resp plan w _ s' Hconn Hplan Hok Hopts Hlabels Hcreate).
  eexists _, _, _. split; [reflexivity|]. simpl. split; [reflexivity|].
  destruct (types.IsNull (Driver plan)); simpl; auto.
Qed.

Lemma HasError_resource_Append (resp : resource.Response) (diags : diag.Diagnostics) :
  diag.HasError (resource.Diagnostics (resource.Append resp diags)) =
  diag.HasError (resource.Diagnostics resp) || diag.HasError diags.
Proof. simpl. apply HasError_Append. Qed.

(** X7. When the planned driver options or the planned labels cannot
    be converted to a Go map, Create makes no call: the world is as before,
    the state of the response is untouched and the response carries an
    error. *)
Theorem Create_no_call_when_conversion_fails (r : SecretResource)
    (req : resource.CreateRequest) (resp : resource.Response)
    (plan : SecretResourceModel) (w : World S) :
  resource.CreateRequest_Plan req = Some plan ->
  diag.HasError (reflect.ElementsAs (DriverOpts plan) (Some ∅)).1 = true \/
  diag.HasError (reflect.ElementsAs (Labels plan) (Some ∅)).1 = true ->
  exists resp',
    run X (SecretResource_Create r req resp) w = Some (resp', w) /\
    resource.State resp' = resource.State resp /\
    diag.HasError (resource.Diagnostics resp') = true.
Proof.
  intros Hplan Hfail.
  unfold SecretResource_Create. rewrite Hplan.
  unfold tfsdk.Get. cbv beta iota.
  destruct (diag.HasError (resource.Diagnostics (resource.Append resp []))) eqn:H0.
  { eexists. split; [reflexivity|]. split; [reflexivity|exact H0]. }
  destruct (reflect.ElementsAs (DriverOpts plan) (Some ∅)) as [d1 o1]. cbv beta iota.
  destruct (diag.HasError (resource.Diagnostics
              (resource.Append (resource.Append resp []) d1))) eqn:H1.
  { eexists. split; [reflexivity|]. split; [reflexivity|exact H1]. }
  destruct (reflect.ElementsAs (Labels plan) (Some ∅)) as [d2 o2]. cbv beta iota.
  destruct (diag.HasError (resource.Diagnostics
              (resource.Append (resource.Append (resource.Append resp []) d1) d2))) eqn:H2.
  { eexists. split; [reflexivity|]. split; [reflexivity|exact H2]. }
  exfalso. rewrite HasError_resource_Append in H1, H2.
  apply orb_false_iff in H1 as [_ H1]. apply orb_false_iff in H2 as [_ H2].
  simpl in Hfail. destruct Hfail as [Hf|Hf]; congruence.
Qed.

(** X8. Whatever happens, Delete leaves the state of the response and
    the log as they were, and it makes at most one call, a remove. *)
Theorem Delete_keeps_state_and_log (r : SecretResource) (req : resource.DeleteRequest)
    (resp resp' : resource.Response) (w w' : World S) :
  run X (SecretResource_Delete r req resp) w = Some (resp', w') ->
  resource.State resp' = resource.State resp /\
  log w' = log w /\
  (trace w' = trace w \/
   exists id, trace w' = (trace w ++ [Called (secrets_Remove (conn r) id)])%list).
Proof.
  unfold SecretResource_Delete.
  destruct (tfsdk.Get _ _) as [diags data].
  destruct (diag.HasError _).
  - intros [= <- <-]. auto.
  - simpl. rewrite ?run_Do. simpl. destruct (conn r) as [c|]; simpl; [|discriminate].
    destruct (ext_Remove X c _ _) as [[err|] s1]; simpl; intros [= <- <-]; simpl; eauto.
Qed.

(** X9. When the remove call succeeds, Delete returns the response
    exactly as it received it, having made the one call that removes the
    identifier of the prior state. *)
Theorem Delete_success (r : SecretResource) (c : Context) (req : resource.DeleteRequest)
    (resp : resource.Response) (prior : SecretResourceModel) (w : World S) (s' : S) :
  conn r = Some c ->
  resource.DeleteRequest_State req = Some prior ->
  diag.HasError (resource.Diagnostics resp) = false ->
  ext_Remove X c (types.ValueString (Id prior)) (engine w) = (None, s') ->
  exists w',
    run X (SecretResource_Delete r req resp) w = Some (resp, w') /\
    trace w' = (trace w ++ [Called (secrets_Remove (Some c) (types.ValueString (Id prior)))])%list /\
    engine w' = s'.
Proof.
  intros Hconn Hstate Hok Hremove.
  rewrite (Delete_calls X r c req resp prior w _ s' Hconn Hstate Hok Hremove).
  eexists. split; [reflexivity|]. simpl. auto.
Qed.

End CreateDeleteMore.

(** ** The four operations together *)
Section Lifecycle.
Context {S : Type} (X : Externals S).

Lemma run_call {T A : Type} (c : Call T) (k : T -> Prog A) (w : World S) :
  run X (call c ≫= k) w =
  match perform X c w with
  | Some (x, w') => run X (k x) w'
  | None => None
  end.
Proof. reflexivity. Qed.

Lemma guard (resp : resource.Response) (diags : diag.Diagnostics) :
  diag.HasError (resource.Diagnostics resp) = true \/ diag.HasError diags = true ->
  diag.HasError (resource.Diagnostics (resource.Append resp diags)) = true.
Proof.
  intros H. rewrite HasError_resource_Append. apply orb_true_iff. exact H.
Qed.

Lemma Get_guard {M : Type} (zero : M) (raw : tfsdk.Data M) (resp : resource.Response) :
  diag.HasError (resource.Diagnostics resp) = true \/ raw = None ->
  diag.HasError (resource.Diagnostics (resource.Append resp (tfsdk.Get zero raw).1)) = true.
Proof.
  intros [H| ->]; apply guard; [by left|by right].
Qed.

(** X10. An operation that starts with an error already in the response,
    or whose plan or prior state is the null object, makes no call: the
    world is as before, the state of the response is untouched and the
    response carries an error. *)
Theorem no_call_after_error (r : SecretResource) (resp : resource.Response) (w : World S) :
  (forall req : resource.CreateRequest,
      diag.HasError (resource.Diagnostics resp) = true \/
      resource.CreateRequest_Plan req = None ->
      exists resp', run X (SecretResource_Create r req resp) w = Some (resp', w) /\
                    resource.State resp' = resource.State resp /\
                    diag.HasError (resource.Diagnostics resp') = true) /\
  (forall req : resource.ReadRequest,
      diag.HasError (resource.Diagnostics resp) = true \/
      resource.ReadRequest_State req = None ->
      exists resp', run X (SecretResource_Read r req resp) w = Some (resp', w) /\
                    resource.State resp' = resource.State resp /\
                    diag.HasError (resource.Diagnostics resp') = true) /\
  (forall req : resource.UpdateRequest,
      diag.HasError (resource.Diagnostics resp) = true \/
      resource.UpdateRequest_Plan req = None ->
      exists resp', run X (SecretResource_Update r req resp) w = Some (resp', w) /\
                    resource.State resp' = resource.State resp /\
                    diag.HasError (resource.Diagnostics resp') = true) /\
  (forall req : resource.DeleteRequest,
      diag.HasError (resource.Diagnostics resp) = true \/
      resource.DeleteRequest_State req = None ->
      exists resp', run X (SecretResource_Delete r req resp) w = Some (resp', w) /\
                    resource.State resp' = resource.State resp /\
                    diag.HasError (resource.Diagnostics resp') = true).
Proof.
  repeat split.
  - intros req H. pose proof (Get_guard zeroSecretResourceModel _ resp H) as HG.
    unfold SecretResource_Create.
    destruct (tfsdk.Get _ _) as [diags data]. cbn [fst] in HG. cbv beta iota. rewrite HG.
    eexists. split; [reflexivity|]. split; [reflexivity|exact HG].
  - intros req H. pose proof (Get_guard zeroSecretResourceModel _ resp H) as HG.
    unfold SecretResource_Read.
    destruct (tfsdk.Get _ _) as [diags data]. cbn [fst] in HG. cbv beta iota. rewrite HG.
    eexists. split; [reflexivity|]. split; [reflexivity|exact HG].
  - intros req H. pose proof (Get_guard zeroSecretResourceModel _ resp H) as HG.
    unfold SecretResource_Update.
    destruct (tfsdk.Get _ _) as [diags data]. cbn [fst] in HG. cbv beta iota. rewrite HG.
    eexists. split; [reflexivity|]. split; [reflexivity|exact HG].
  - intros req H. pose proof (Get_guard zeroSecretResourceModel _ resp H) as HG.
    unfold SecretResource_Delete.
    destruct (tfsdk.Get _ _) as [diags data]. cbn [fst] in HG. cbv beta iota. rewrite HG.
    eexists. split; [reflexivity|]. split; [reflexivity|exact HG].
Qed.

(** What the steps of a handler do to the diagnostics that are there. *)
Lemma keeps_Append (resp : resource.Response) (diags : diag.Diagnostics) (d : diag.Diagnostic) :
  d ∈ resource.Diagnostics resp -> d ∈ resource.Diagnostics (resource.Append resp diags).
Proof. simpl. apply Append_keeps. Qed.

Lemma keeps_AddError (resp : resource.Response) (summary detail : string) (d : diag.Diagnostic) :
  d ∈ resource.Diagnostics resp ->
  d ∈ resource.Diagnostics (resource.AddError resp summary detail).
Proof. simpl. apply AddError_keeps. Qed.

Lemma keeps_StateSet (resp : resource.Response) (data : SecretResourceModel)
    (d : diag.Diagnostic) :
  d ∈ resource.Diagnostics resp -> d ∈ resource.Diagnostics (resource.StateSet resp data).
Proof. by destruct resp. Qed.

Lemma keeps_StateRemoveResource (resp : resource.Response) (d : diag.Diagnostic) :
  d ∈ resource.Diagnostics resp ->
  d ∈ resource.Diagnostics (resource.StateRemoveResource resp).
Proof. done. Qed.

Create HintDb keeps.
#[local] Hint Resolve keeps_Append keeps_AddError keeps_StateSet keeps_StateRemoveResource
  : keeps.

(** X11. No operation drops a diagnostic: whatever Create, Read, Update
    or Delete returns, every diagnostic the response came with is still in
    it. *)
Theorem diagnostics_only_grow (r : SecretResource) (resp resp' : resource.Response)
    (w w' : World S) (d : diag.Diagnostic) :
  d ∈ resource.Diagnostics resp ->
  (forall req, run X (SecretResource_Create r req resp) w = Some (resp', w') ->
               d ∈ resource.Diagnostics resp') /\
  (forall req, run X (SecretResource_Read r req resp) w = Some (resp', w') ->
               d ∈ resource.Diagnostics resp') /\
  (forall req, run X (SecretResource_Update r req resp) w = Some (resp', w') ->
               d ∈ resource.Diagnostics resp') /\
  (forall req, run X (SecretResource_Delete r req resp) w = Some (resp', w') ->
               d ∈ resource.Diagnostics resp').
Proof.
  intros Hd. repeat split; intros req.
  - unfold SecretResource_Create.
    destruct (tfsdk.Get _ _) as [diags data]. cbv beta iota.
    destruct (diag.HasError _); [intros [= <- <-]; eauto with keeps|].
    destruct (reflect.ElementsAs (DriverOpts data) _) as [d1 o1]. cbv beta iota.
    destruct (diag.HasError _); [intros [= <- <-]; eauto with keeps|].
    destruct (reflect.ElementsAs (Labels data) _) as [d2 o2]. cbv beta iota.
    destruct (diag.HasError _); [intros [= <- <-]; eauto 6 with keeps|].
    rewrite run_call.
    match goal with |- context [perform X ?c w] =>
      destruct (perform X c w) as [[[createResp|err] w1]|] end; [| |discriminate];
      intros [= <- <-]; eauto 7 with keeps.
  - unfold SecretResource_Read.
    destruct (tfsdk.Get _ _) as [diags data]. cbv beta iota.
    destruct (diag.HasError _); [intros [= <- <-]; eauto with keeps|].
    rewrite run_call.
    match goal with |- context [perform X ?c w] =>
      destruct (perform X c w) as [[[[|secret0 rest]|err] w1]|] end; [| | |discriminate].
    + intros [= <- <-]; eauto with keeps.
    + destruct (reflect.NewMapValueFrom _) as [m1 e1].
      destruct (reflect.NewMapValueFrom _) as [m2 e2]. simpl.
      intros [= <- <-]; eauto 7 with keeps.
    + intros [= <- <-]; eauto with keeps.
  - unfold SecretResource_Update.
    destruct (tfsdk.Get _ _) as [diags data]. cbv beta iota.
    destruct (diag.HasError _); intros [= <- <-]; eauto with keeps.
  - unfold SecretResource_Delete.
    destruct (tfsdk.Get _ _) as [diags data]. cbv beta iota.
    destruct (diag.HasError _); [intros [= <- <-]; eauto with keeps|].
    rewrite run_call.
    match goal with |- context [perform X ?c w] =>
      destruct (perform X c w) as [[[err|] w1]|] end; [| |discriminate];
      intros [= <- <-]; eauto with keeps.
Qed.

End Lifecycle.

(** ** Create, then Read and Delete; import, then Read *)
Section Composition.
Context {S : Type} (X : Externals S).

(** X12. The identifier the remote create call returned is the one the
    later operations use: a Read from the state Create set lists with that
    identifier as the filter value, and a Delete from it removes that
    identifier. *)
Theorem created_id_keys_Read_and_Delete (r : SecretResource) (c : Context)
    (req : resource.CreateRequest) (resp : resource.Response)
    (plan : SecretResourceModel) (w : World S)
    (createResp : entities.SecretCreateReport) (s' : S) :
  conn r = Some c ->
  resource.CreateRequest_Plan req = Some plan ->
  diag.HasError (resource.Diagnostics resp) = false ->
  diag.HasError (reflect.ElementsAs (DriverOpts plan) (Some ∅)).1 = false ->
  diag.HasError (reflect.ElementsAs (Labels plan) (Some ∅)).1 = false ->
  ext_Create X c (types.ValueString (Secret plan))
    {| secrets.Name := types.ValueStringPointer (Name plan);
       secrets.Driver := types.ValueStringPointer (Driver plan);
       secrets.DriverOpts := (reflect.ElementsAs (DriverOpts plan) (Some ∅)).2;
       secrets.Labels := (reflect.ElementsAs (Labels plan) (Some ∅)).2 |}
    (engine w) = (inl createResp, s') ->
  exists resp1 w1,
    run X (SecretResource_Create r req resp) w = Some (resp1, w1) /\
    (forall resp2 w2 res s2,
        diag.HasError (resource.Diagnostics resp2) = false ->
        ext_List X c
          {| secrets.Filters :=
               Some {[ "id" := [entities.SecretCreateReport_ID createResp] ]} |}
          (engine w2) = (res, s2) ->
        exists resp3 w3,
          run X (SecretResource_Read r
                   {| resource.ReadRequest_State := resource.State resp1 |} resp2) w2
            = Some (resp3, w3) /\
          trace w3 = (trace w2 ++
                      [Called (secrets_List (Some c)
                         {| secrets.Filters :=
                              Some {[ "id" := [entities.SecretCreateReport_ID createResp] ]} |})])%list) /\
    (forall resp2 w2 res s2,
        diag.HasError (resource.Diagnostics resp2) = false ->
        ext_Remove X c (entities.SecretCreateReport_ID createResp) (engine w2) = (res, s2) ->
        exists resp3 w3,
          run X (SecretResource_Delete r
                   {| resource.DeleteRequest_State := resource.State resp1 |} resp2) w2
            = Some (resp3, w3) /\
          trace w3 = (trace w2 ++
                      [Called (secrets_Remove (Some c)
                                 (entities.SecretCreateReport_ID createResp))])%list).
Proof.
  intros Hconn Hplan Hok Hopts Hlabels Hcreate.
  rewrite (Create_calls X r c req resp plan w _ s' Hconn Hplan Hok Hopts Hlabels Hcreate).
  eexists _, _. split; [reflexivity|]. cbn [resource.State].
  set (st := if types.IsNull (Driver plan) then _ else _).
  assert (Hid : Id st = types.StringValue (entities.SecretCreateReport_ID createResp))
    by (subst st; by destruct (types.IsNull (Driver plan))).
  split.
  - intros resp2 w2 res s2 Hok2 Hlist.
    destruct (Read_calls X r c {| resource.ReadRequest_State := Some st |} resp2 st w2 res s2
                Hconn eq_refl Hok2) as (resp3 & w3 & Hrun & Htrace & _).
    { rewrite Hid. exact Hlist. }
    exists resp3, w3. split; [exact Hrun|]. rewrite Htrace, Hid. reflexivity.
  - intros resp2 w2 res s2 Hok2 Hremove.
    rewrite (Delete_calls X r c {| resource.DeleteRequest_State := Some st |} resp2 st w2
               res s2 Hconn eq_refl Hok2).
    + eexists _, _. split; [reflexivity|]. simpl. rewrite Hid. reflexivity.
    + rewrite Hid. exact Hremove.
Qed.

(** X13. Import writes the identifier of the request into the state
    and adds no diagnostic; a Read from the imported state lists with that
    identifier, and when a record is found the state holds the imported
    identifier and the name, driver and secret content of the record. *)
Theorem Import_then_Read (r : SecretResource) (c : Context) (id : string)
    (resp0 resp : resource.Response) (w : World S)
    (secret0 : entities.SecretInfoReport) (rest : list entities.SecretInfoReport) (s' : S) :
  conn r = Some c ->
  diag.HasError (resource.Diagnostics resp) = false ->
  ext_List X c {| secrets.Filters := Some {[ "id" := [id] ]} |} (engine w)
    = (inl (secret0 :: rest), s') ->
  let imported := SecretResource_ImportState r {| ImportStateRequest_ID := id |} resp0 in
  resource.Diagnostics imported = resource.Diagnostics resp0 /\
  Id <$> resource.State imported = Some (types.StringValue id) /\
  exists resp' w' st,
    run X (SecretResource_Read r {| resource.ReadRequest_State := resource.State imported |}
             resp) w = Some (resp', w') /\
    trace w' = (trace w ++ [Called (secrets_List (Some c)
                  {| secrets.Filters := Some {[ "id" := [id] ]} |})])%list /\
    resource.State resp' = Some st /\
    Id st = types.StringValue id /\
    Name st = types.StringValue (entities.Name (entities.Spec secret0)) /\
    Driver st = types.StringValue
                  (entities.SecretDriverSpec_Name (entities.Driver (entities.Spec secret0))) /\
    Secret st = types.StringValue (entities.SecretData secret0).
Proof.
  intros Hconn Hok Hlist. simpl.
  split; [reflexivity|]. split; [reflexivity|].
  erewrite Read_found; [|exact Hconn|reflexivity|exact Hok|exact Hlist].
  eexists _, _, _. split; [reflexivity|]. simpl. repeat split.
Qed.

End Composition.

(** ** More on the provider *)
Section ProviderMore.
Context {S : Type} (X : Externals S).

(** The endpoint Configure connects to, [dir] being the value of
    [XDG_RUNTIME_DIR]. *)
Local Abbreviation target cfg dir :=
  (if types.IsNull (Endpoint cfg)
   then "unix:" +:+ dir +:+ "/podman/podman.sock"
   else types.ValueString (Endpoint cfg)).

(** X14. With an endpoint that is not null, Configure does not look at
    the environment: its one call is the connection to the configured
    endpoint. *)
Theorem Configure_explicit_endpoint (req : provider.ConfigureRequest)
    (resp : provider.ConfigureResponse) (cfg : PodmanProviderModel) (w : World S) :
  provider.Config req = Some cfg ->
  types.IsNull (Endpoint cfg) = false ->
  diag.HasError (provider.Diagnostics resp) = false ->
  exists resp' w',
    run X (PodmanProvider_Configure req resp) w = Some (resp', w') /\
    trace w' = (trace w ++
                [Called (bindings_NewConnection (types.ValueString (Endpoint cfg)))])%list.
Proof.
  intros Hcfg Hnull Hok.
  unfold PodmanProvider_Configure. rewrite Hcfg. simpl. rewrite Hok, Hnull.
  rewrite run_Do. simpl.
  destruct (ext_NewConnection X _ _); eexists _, _; (split; [reflexivity|]); reflexivity.
Qed.

(** X15. When the connection is made, Configure hands the same handle
    over for resources and for data sources and adds no diagnostic; and a
    secret resource configured with that data, whatever it held before,
    holds the handle and gets no diagnostic. *)
Theorem Configure_hands_over_connection (req : provider.ConfigureRequest) (resp : provider.ConfigureResponse)
    (cfg : PodmanProviderModel) (w : World S) (dir : string) (handle : Context) :
  provider.Config req = Some cfg ->
  diag.HasError (provider.Diagnostics resp) = false ->
  (types.IsNull (Endpoint cfg) = true -> ext_LookupEnv X "XDG_RUNTIME_DIR" = Some dir) ->
  ext_NewConnection X (target cfg dir) (engine w) = inl handle ->
  exists resp' w',
    run X (PodmanProvider_Configure req resp) w = Some (resp', w') /\
    provider.ResourceData resp' = any_Context handle /\
    provider.DataSourceData resp' = any_Context handle /\
    provider.Diagnostics resp' = provider.Diagnostics resp /\
    engine w' = engine w /\
    forall (r : SecretResource) (cresp : resource.ConfigureResponse),
      SecretResource_Configure r
        {| resource.ProviderData := provider.ResourceData resp' |} cresp
      = ({| conn := Some handle |}, cresp).
Proof.
  intros Hcfg Hok Henv Hconn.
  unfold PodmanProvider_Configure. rewrite Hcfg. simpl. rewrite Hok.
  destruct (types.IsNull (Endpoint cfg)) eqn:Hnull.
  - rewrite run_Do. simpl. rewrite (Henv eq_refl). rewrite run_Do. simpl. rewrite Hconn.
    eexists _, _. split; [reflexivity|]. simpl. repeat split.
  - rewrite run_Do. simpl. rewrite Hconn.
    eexists _, _. split; [reflexivity|]. simpl. repeat split.
Qed.

(** X16. When the connection fails, Configure ends with the error
    "failed to connect to podman socket" and the text of the failure, and
    hands nothing over: the data for resources and data sources is what
    the response came with. *)
Theorem Configure_connection_failure (req : provider.ConfigureRequest)
    (resp : provider.ConfigureResponse) (cfg : PodmanProviderModel) (w : World S)
    (dir : string) (err : error) :
  provider.Config req = Some cfg ->
  diag.HasError (provider.Diagnostics resp) = false ->
  (types.IsNull (Endpoint cfg) = true -> ext_LookupEnv X "XDG_RUNTIME_DIR" = Some dir) ->
  ext_NewConnection X (target cfg dir) (engine w) = inr err ->
  exists resp' w',
    run X (PodmanProvider_Configure req resp) w = Some (resp', w') /\
    diag.HasError (provider.Diagnostics resp') = true /\
    diag.NewErrorDiagnostic "failed to connect to podman socket" (Error err)
      ∈ provider.Diagnostics resp' /\
    provider.ResourceData resp' = provider.ResourceData resp /\
    provider.DataSourceData resp' = provider.DataSourceData resp.
Proof.
  intros Hcfg Hok Henv Hconn.
  unfold PodmanProvider_Configure. rewrite Hcfg. simpl. rewrite Hok.
  destruct (types.IsNull (Endpoint cfg)) eqn:Hnull.
  - rewrite run_Do. simpl. rewrite (Henv eq_refl). rewrite run_Do. simpl. rewrite Hconn.
    eexists _, _. split; [reflexivity|]. simpl.
    split; [apply HasError_AddError|]. split; [apply elem_of_AddError|]. auto.
  - rewrite run_Do. simpl. rewrite Hconn.
    eexists _, _. split; [reflexivity|]. simpl.
    split; [apply HasError_AddError|]. split; [apply elem_of_AddError|]. auto.
Qed.

End ProviderMore.

(** ** Names, versions and schemas *)

(** X17. Whatever version the provider is built with, it reports the
    type name podman and that version; it lists one resource, which starts
    without a connection and, given the provider's type name, names itself
    podman_secret. *)
Theorem provider_and_resource_names (v : string) (presp : metadata.ProviderResponse)
    (rresp : metadata.ResourceResponse) :
  let p := New v tt in
  metadata.TypeName (PodmanProvider_Metadata p presp) = "podman" /\
  metadata.Version (PodmanProvider_Metadata p presp) = v /\
  length (PodmanProvider_Resources p) = 1 /\
  forall mk, mk ∈ PodmanProvider_Resources p ->
    conn (mk tt) = None /\
    metadata.ResourceResponse_TypeName
      (SecretResource_Metadata (mk tt)
         {| metadata.ProviderTypeName :=
              metadata.TypeName (PodmanProvider_Metadata p presp) |} rresp)
    = "podman_secret".
Proof.
  simpl. repeat split; apply list_elem_of_singleton in H; by subst mk.
Qed.

(** X18. In both versions of the resource and in the provider, the
    model struct fits the schema (the tags are the attribute names, each
    field has the kind of its attribute), every attribute is well formed,
    and the one sensitive attribute of the resource is secret. *)
Theorem schemas_fit_models :
  fits SecretResourceModel_tags SecretResource_Schema = true /\
  fits V0.SecretResourceModel_tags V0.SecretResource_Schema = true /\
  fits PodmanProviderModel_tags PodmanProvider_Schema = true /\
  map_Forall (fun _ a => wellFormed a = true) SecretResource_Schema /\
  map_Forall (fun _ a => wellFormed a = true) V0.SecretResource_Schema /\
  map_Forall (fun _ a => wellFormed a = true) PodmanProvider_Schema /\
  dom (filter (fun kv => schema.Sensitive kv.2 = true) SecretResource_Schema) = {[ "secret" ]} /\
  dom (filter (fun kv => schema.Sensitive kv.2 = true) V0.SecretResource_Schema)
    = {[ "secret" ]}.
Proof.
  split; [by vm_compute|]. split; [by vm_compute|]. split; [by vm_compute|].
  split; [|split; [|split]].
  4: { split; by vm_compute. }
  all: apply map_Forall_to_list; vm_compute; repeat (constructor; [reflexivity|]);
    constructor.
Qed.

(** ** The earlier Read *)
Section Earlier.
Context {S : Type} (X : Externals S).

(** X19. On a record found, the earlier Read and the current one make
    the same call and set the same identifier, name, driver and secret;
    the earlier one keeps the labels of the prior state and writes nothing
    to the log, the current one writes one line. *)
Theorem earlier_Read_agrees_without_log (r : SecretResource) (c : Context)
    (prior0 : V0.SecretResourceModel) (prior : SecretResourceModel)
    (resp0 : V0.Response) (resp : resource.Response) (w : World S)
    (secret0 : entities.SecretInfoReport) (rest : list entities.SecretInfoReport) (s' : S) :
  conn r = Some c ->
  V0.Id prior0 = Id prior ->
  diag.HasError (V0.Diagnostics resp0) = false ->
  diag.HasError (resource.Diagnostics resp) = false ->
  ext_List X c {| secrets.Filters := Some {[ "id" := [types.ValueString (Id prior)] ]} |}
    (engine w) = (inl (secret0 :: rest), s') ->
  exists resp0' w0' resp' w',
    run X (V0.SecretResource_Read r {| V0.ReadRequest_State := Some prior0 |} resp0) w
      = Some (resp0', w0') /\
    run X (SecretResource_Read r {| resource.ReadRequest_State := Some prior |} resp) w
      = Some (resp', w') /\
    trace w0' = trace w' /\ engine w0' = engine w' /\
    log w0' = log w /\ length (log w') = Datatypes.S (length (log w)) /\
    V0.Id <$> V0.State resp0' = Id <$> resource.State resp' /\
    V0.Name <$> V0.State resp0' = Name <$> resource.State resp' /\
    V0.Driver <$> V0.State resp0' = Driver <$> resource.State resp' /\
    V0.Secret <$> V0.State resp0' = Secret <$> resource.State resp' /\
    V0.Labels <$> V0.State resp0' = Some (V0.Labels prior0) /\
    V0.Diagnostics resp0' = V0.Diagnostics resp0.
Proof.
  intros Hconn Hid Hok0 Hok Hlist.
  rewrite (Read_found X r c {| resource.ReadRequest_State := Some prior |} resp prior w
             secret0 rest s' Hconn eq_refl Hok Hlist).
  unfold V0.SecretResource_Read. simpl. rewrite Hok0, Hconn, Hid.
  rewrite run_Do, (perform_List X _ _ _ _ _ Hlist). simpl.
  eexists _, _, _, _. split; [reflexivity|]. split; [reflexivity|]. simpl.
  rewrite Hid, length_app. simpl. repeat split; try reflexivity. lia.
Qed.

End Earlier.

(** * The further properties on concrete inputs *)

(** The state of abc123 is read against an engine that has the record. *)
Lemma Read_one_call_id_kept_run :
  exists resp' w',
    run (Sim.externals None)
      (SecretResource_Read Sim.r {| resource.ReadRequest_State := Some Sim.state_foo |}
         Sim.prior_resp)
      (Sim.world (Sim.engine_foo "")) = Some (resp', w') /\
    trace w' = [Called (secrets_List (Some Sim.sock)
                  {| secrets.Filters := Some {[ "id" := ["abc123"] ]} |})] /\
    engine w' = Sim.engine_foo "" /\
    Id <$> resource.State resp' = Some (types.StringValue "abc123") /\
    length (log w') = 1.
Proof.
  apply (Read_one_call_id_kept (Sim.externals None) Sim.r Sim.sock
           {| resource.ReadRequest_State := Some Sim.state_foo |} Sim.prior_resp
           Sim.state_foo (Sim.world (Sim.engine_foo "")) (inl [Sim.info "abc123" "foo" ""])
           (Sim.engine_foo ""));
    reflexivity.
Defined.

(** Two prior states for abc123 that differ in the secret they hold. *)
Lemma Read_uses_only_id_run :
  run (Sim.externals None)
    (SecretResource_Read Sim.r {| resource.ReadRequest_State := Some Sim.state_foo |}
       Sim.prior_resp)
    (Sim.world (Sim.engine_foo "")) =
  run (Sim.externals None)
    (SecretResource_Read Sim.r
       {| resource.ReadRequest_State :=
            Some (set_Secret (types.StringValue "other") Sim.state_foo) |}
       Sim.prior_resp)
    (Sim.world (Sim.engine_foo "")).
Proof.
  apply (Read_uses_only_id (Sim.externals None) Sim.r Sim.prior_resp Sim.state_foo
           (set_Secret (types.StringValue "other") Sim.state_foo)
           (Sim.world (Sim.engine_foo ""))).
  reflexivity.
Defined.

(** The engine returns the content bar. *)
Lemma Read_logs_plain_content_run :
  exists resp' w' entry,
    run (Sim.externals None)
      (SecretResource_Read Sim.r {| resource.ReadRequest_State := Some Sim.state_foo |}
         Sim.prior_resp)
      (Sim.world (Sim.engine_foo "bar")) = Some (resp', w') /\
    log w' = [entry] /\
    tflog.EntryLevel entry = tflog.LevelError /\
    Contains (tflog.Message entry) "bar" = true.
Proof.
  apply (Read_logs_plain_content (Sim.externals None) Sim.r Sim.sock
           {| resource.ReadRequest_State := Some Sim.state_foo |} Sim.prior_resp
           Sim.state_foo (Sim.world (Sim.engine_foo "bar")) (Sim.info "abc123" "foo" "bar") []
           (Sim.engine_foo "bar"));
    reflexivity.
Defined.

Lemma Read_again_same_state_run :
  exists resp1' w1' resp2' w2',
    run (Sim.externals None)
      (SecretResource_Read Sim.r {| resource.ReadRequest_State := Some Sim.state_foo |}
         Sim.prior_resp)
      (Sim.world (Sim.engine_foo "")) = Some (resp1', w1') /\
    run (Sim.externals None)
      (SecretResource_Read Sim.r {| resource.ReadRequest_State := resource.State resp1' |}
         Sim.prior_resp)
      (Sim.world (Sim.engine_foo "")) = Some (resp2', w2') /\
    is_Some (resource.State resp1') /\
    resource.State resp2' = resource.State resp1'.
Proof.
  apply (Read_again_same_state (Sim.externals None) Sim.r Sim.sock Sim.prior_resp
           Sim.prior_resp Sim.state_foo (Sim.world (Sim.engine_foo ""))
           (Sim.world (Sim.engine_foo "")) (Sim.info "abc123" "foo" "") []
           (Sim.engine_foo "") (Sim.engine_foo ""));
    reflexivity.
Defined.

(** The example configuration without a driver is created on an engine
    that hands out abc123. *)
Lemma Create_one_call_run :
  exists resp' w' options,
    run (Sim.externals None)
      (SecretResource_Create Sim.r
         {| resource.CreateRequest_Plan := Some (Sim.plan_foo types.StringNull) |}
         Sim.fresh_resp)
      (Sim.world Sim.engine_empty) = Some (resp', w') /\
    trace w' = [Called (secrets_Create (Some Sim.sock) "bar" options)] /\
    secrets.Name options = Some "foo" /\
    secrets.Driver options = None /\
    log w' = [].
Proof.
  destruct (Create_one_call (Sim.externals None) Sim.r Sim.sock
              {| resource.CreateRequest_Plan := Some (Sim.plan_foo types.StringNull) |}
              Sim.fresh_resp (Sim.plan_foo types.StringNull) (Sim.world Sim.engine_empty)
              _ _ eq_refl eq_refl eq_refl eq_refl eq_refl eq_refl)
    as (resp' & w' & options & Hrun & Htrace & Hname & Hdriver & _ & Hlog).
  exists resp', w', options.
  repeat split; [exact Hrun|exact Htrace|exact Hname|exact (proj2 Hdriver eq_refl)|exact Hlog].
Defined.

Lemma Create_keeps_planned_fields_run :
  exists resp' w' st,
    run (Sim.externals None)
      (SecretResource_Create Sim.r
         {| resource.CreateRequest_Plan := Some (Sim.plan_foo types.StringNull) |}
         Sim.fresh_resp)
      (Sim.world Sim.engine_empty) = Some (resp', w') /\
    resource.State resp' = Some st /\
    Name st = types.StringValue "foo" /\ DriverOpts st = types.MapNull /\
    Labels st = types.MapValue {[ "foo" := types.StringValue "bar" ]} /\
    Secret st = types.StringValue "bar" /\
    resource.Diagnostics resp' = [].
Proof.
  apply (Create_keeps_planned_fields (Sim.externals None) Sim.r Sim.sock
           {| resource.CreateRequest_Plan := Some (Sim.plan_foo types.StringNull) |}
           Sim.fresh_resp (Sim.plan_foo types.StringNull) (Sim.world Sim.engine_empty)
           {| entities.SecretCreateReport_ID := "abc123" |}
           (Sim.Create Sim.sock "bar"
              {| secrets.Name := Some "foo"; secrets.Driver := None;
                 secrets.DriverOpts := None;
                 secrets.Labels := Some {[ "foo" := "bar" ]} |} Sim.engine_empty).2);
    reflexivity.
Defined.

(** The same configuration with driver options that are not known yet. *)
Lemma Create_no_call_when_conversion_fails_run :
  exists resp',
    run (Sim.externals None)
      (SecretResource_Create Sim.r
         {| resource.CreateRequest_Plan :=
              Some (set_DriverOpts types.MapUnknown (Sim.plan_foo types.StringNull)) |}
         Sim.fresh_resp)
      (Sim.world Sim.engine_empty) = Some (resp', Sim.world Sim.engine_empty) /\
    resource.State resp' = None /\
    diag.HasError (resource.Diagnostics resp') = true.
Proof.
  apply (Create_no_call_when_conversion_fails (Sim.externals None) Sim.r
           {| resource.CreateRequest_Plan :=
                Some (set_DriverOpts types.MapUnknown (Sim.plan_foo types.StringNull)) |}
           Sim.fresh_resp
           (set_DriverOpts types.MapUnknown (Sim.plan_foo types.StringNull))
           (Sim.world Sim.engine_empty) eq_refl).
  left. reflexivity.
Defined.

(** The secret abc123 is deleted on an engine that has it. *)
Lemma Delete_keeps_state_and_log_run :
  resource.State Sim.prior_resp = Some Sim.state_foo /\
  log (record (secrets_Remove (Some Sim.sock) "abc123")
         {| Sim.up := true; Sim.store := []; Sim.fresh := [] |}
         (Sim.world (Sim.engine_foo ""))) = [] /\
  (trace (record (secrets_Remove (Some Sim.sock) "abc123")
            {| Sim.up := true; Sim.store := []; Sim.fresh := [] |}
            (Sim.world (Sim.engine_foo ""))) = [] \/
   exists id,
     trace (record (secrets_Remove (Some Sim.sock) "abc123")
              {| Sim.up := true; Sim.store := []; Sim.fresh := [] |}
              (Sim.world (Sim.engine_foo "")))
     = [Called (secrets_Remove (Some Sim.sock) id)]).
Proof.
  apply (Delete_keeps_state_and_log (Sim.externals None) Sim.r
           {| resource.DeleteRequest_State := Some Sim.state_foo |}
           Sim.prior_resp Sim.prior_resp (Sim.world (Sim.engine_foo ""))).
  reflexivity.
Defined.

Lemma Delete_success_run :
  exists w',
    run (Sim.externals None)
      (SecretResource_Delete Sim.r {| resource.DeleteRequest_State := Some Sim.state_foo |}
         Sim.prior_resp)
      (Sim.world (Sim.engine_foo "")) = Some (Sim.prior_resp, w') /\
    trace w' = [Called (secrets_Remove (Some Sim.sock) "abc123")] /\
    engine w' = {| Sim.up := true; Sim.store := []; Sim.fresh := [] |}.
Proof.
  apply (Delete_success (Sim.externals None) Sim.r Sim.sock
           {| resource.DeleteRequest_State := Some Sim.state_foo |} Sim.prior_resp
           Sim.state_foo (Sim.world (Sim.engine_foo "")));
    reflexivity.
Defined.

(** A Read and a Delete whose prior state is the null object. *)
Lemma no_call_after_error_run :
  (exists resp',
      run (Sim.externals None)
        (SecretResource_Read Sim.r {| resource.ReadRequest_State := None |} Sim.fresh_resp)
        (Sim.world (Sim.engine_foo "")) = Some (resp', Sim.world (Sim.engine_foo "")) /\
      resource.State resp' = None /\
      diag.HasError (resource.Diagnostics resp') = true) /\
  (exists resp',
      run (Sim.externals None)
        (SecretResource_Delete Sim.r {| resource.DeleteRequest_State := None |} Sim.fresh_resp)
        (Sim.world (Sim.engine_foo "")) = Some (resp', Sim.world (Sim.engine_foo "")) /\
      resource.State resp' = None /\
      diag.HasError (resource.Diagnostics resp') = true).
Proof.
  destruct (no_call_after_error (Sim.externals None) Sim.r Sim.fresh_resp
              (Sim.world (Sim.engine_foo ""))) as (_ & Hread & _ & Hdelete).
  split.
  - apply (Hread {| resource.ReadRequest_State := None |}). right. reflexivity.
  - apply (Hdelete {| resource.DeleteRequest_State := None |}). right. reflexivity.
Defined.

(** A Delete that fails, on a response that came with a warning. *)
Lemma diagnostics_only_grow_run :
  diag.NewDiagnostic diag.SeverityWarning "deprecated" "use another resource"
  ∈ resource.Diagnostics
      (resource.AddError
         {| resource.State := Some Sim.state_foo;
            resource.Diagnostics :=
              [diag.NewDiagnostic diag.SeverityWarning "deprecated" "use another resource"] |}
         "failed to delete secret" "no secret with name or id abc123: no such secret").
Proof.
  apply (proj2 (proj2 (proj2
           (diagnostics_only_grow (Sim.externals None) Sim.r
              {| resource.State := Some Sim.state_foo;
                 resource.Diagnostics :=
                   [diag.NewDiagnostic diag.SeverityWarning "deprecated"
                      "use another resource"] |}
              _ (Sim.world Sim.engine_empty)
              (record (secrets_Remove (Some Sim.sock) "abc123") Sim.engine_empty
                 (Sim.world Sim.engine_empty))
              (diag.NewDiagnostic diag.SeverityWarning "deprecated" "use another resource")
              ltac:(constructor))))
           {| resource.DeleteRequest_State := Some Sim.state_foo |}).
  reflexivity.
Defined.

(** Create on an engine that hands out abc123, then a Read and a Delete
    from the state it set, against the engine as Create left it. *)
Lemma created_id_keys_Read_and_Delete_run :
  exists resp1 w1,
    run (Sim.externals None)
      (SecretResource_Create Sim.r
         {| resource.CreateRequest_Plan := Some (Sim.plan_foo types.StringNull) |}
         Sim.fresh_resp)
      (Sim.world Sim.engine_empty) = Some (resp1, w1) /\
    (exists resp3 w3,
        run (Sim.externals None)
          (SecretResource_Read Sim.r
             {| resource.ReadRequest_State := resource.State resp1 |} Sim.prior_resp)
          (Sim.world (Sim.engine_foo "")) = Some (resp3, w3) /\
        trace w3 = [Called (secrets_List (Some Sim.sock)
                      {| secrets.Filters := Some {[ "id" := ["abc123"] ]} |})]) /\
    (exists resp3 w3,
        run (Sim.externals None)
          (SecretResource_Delete Sim.r
             {| resource.DeleteRequest_State := resource.State resp1 |} Sim.prior_resp)
          (Sim.world (Sim.engine_foo "")) = Some (resp3, w3) /\
        trace w3 = [Called (secrets_Remove (Some Sim.sock) "abc123")]).
Proof.
  destruct (created_id_keys_Read_and_Delete (Sim.externals None) Sim.r Sim.sock
              {| resource.CreateRequest_Plan := Some (Sim.plan_foo types.StringNull) |}
              Sim.fresh_resp (Sim.plan_foo types.StringNull) (Sim.world Sim.engine_empty)
              {| entities.SecretCreateReport_ID := "abc123" |}
              (Sim.Create Sim.sock "bar"
                 {| secrets.Name := Some "foo"; secrets.Driver := None;
                    secrets.DriverOpts := None;
                    secrets.Labels := Some {[ "foo" := "bar" ]} |} Sim.engine_empty).2
              eq_refl eq_refl eq_refl eq_refl eq_refl eq_refl)
    as (resp1 & w1 & Hrun & Hread & Hdelete).
  exists resp1, w1. split; [exact Hrun|]. split.
  - apply (Hread Sim.prior_resp (Sim.world (Sim.engine_foo ""))
             (inl [Sim.info "abc123" "foo" ""]) (Sim.engine_foo "")); reflexivity.
  - apply (Hdelete Sim.prior_resp (Sim.world (Sim.engine_foo "")) None
             {| Sim.up := true; Sim.store := []; Sim.fresh := [] |}); reflexivity.
Defined.

(** The secret abc123 is imported and read. *)
Lemma Import_then_Read_run :
  exists resp' w' st,
    run (Sim.externals None)
      (SecretResource_Read Sim.r
         {| resource.ReadRequest_State :=
              resource.State
                (SecretResource_ImportState Sim.r {| ImportStateRequest_ID := "abc123" |}
                   Sim.fresh_resp) |}
         Sim.fresh_resp)
      (Sim.world (Sim.engine_foo "")) = Some (resp', w') /\
    trace w' = [Called (secrets_List (Some Sim.sock)
                  {| secrets.Filters := Some {[ "id" := ["abc123"] ]} |})] /\
    resource.State resp' = Some st /\
    Id st = types.StringValue "abc123" /\
    Name st = types.StringValue "foo" /\
    Driver st = types.StringValue "file" /\
    Secret st = types.StringValue "".
Proof.
  apply (Import_then_Read (Sim.externals None) Sim.r Sim.sock "abc123" Sim.fresh_resp
           Sim.fresh_resp (Sim.world (Sim.engine_foo "")) (Sim.info "abc123" "foo" "") []
           (Sim.engine_foo "") eq_refl eq_refl eq_refl).
Defined.

(** The provider is configured with an endpoint, against an engine that
    is up and against one that is down. *)
Lemma Configure_explicit_endpoint_run :
  exists resp' w',
    run (Sim.externals (Some "/run/user/1000"))
      (PodmanProvider_Configure
         {| provider.Config := Some {| Endpoint := types.StringValue "unix:/tmp/p.sock" |} |}
         {| provider.Diagnostics := []; provider.ResourceData := any_nil;
            provider.DataSourceData := any_nil |})
      (Sim.world Sim.engine_empty) = Some (resp', w') /\
    trace w' = [Called (bindings_NewConnection "unix:/tmp/p.sock")].
Proof.
  apply (Configure_explicit_endpoint (Sim.externals (Some "/run/user/1000"))
           {| provider.Config := Some {| Endpoint := types.StringValue "unix:/tmp/p.sock" |} |}
           {| provider.Diagnostics := []; provider.ResourceData := any_nil;
              provider.DataSourceData := any_nil |}
           {| Endpoint := types.StringValue "unix:/tmp/p.sock" |}
           (Sim.world Sim.engine_empty));
    reflexivity.
Defined.

Lemma Configure_hands_over_connection_run :
  exists resp' w',
    run (Sim.externals (Some "/run/user/1000"))
      (PodmanProvider_Configure {| provider.Config := Some zeroPodmanProviderModel |}
         {| provider.Diagnostics := []; provider.ResourceData := any_nil;
            provider.DataSourceData := any_nil |})
      (Sim.world Sim.engine_empty) = Some (resp', w') /\
    provider.ResourceData resp' = any_Context Sim.sock /\
    provider.DataSourceData resp' = any_Context Sim.sock /\
    provider.Diagnostics resp' = [] /\
    SecretResource_Configure NewSecretResource
      {| resource.ProviderData := provider.ResourceData resp' |}
      {| resource.ConfigureResponse_Diagnostics := [] |}
    = (Sim.r, {| resource.ConfigureResponse_Diagnostics := [] |}).
Proof.
  destruct (Configure_hands_over_connection (Sim.externals (Some "/run/user/1000"))
              {| provider.Config := Some zeroPodmanProviderModel |}
              {| provider.Diagnostics := []; provider.ResourceData := any_nil;
                 provider.DataSourceData := any_nil |}
              zeroPodmanProviderModel (Sim.world Sim.engine_empty) "/run/user/1000" Sim.sock
              eq_refl eq_refl (fun _ => eq_refl) eq_refl)
    as (resp' & w' & Hrun & Hres & Hdata & Hdiags & _ & Hconf).
  exists resp', w'.
  repeat split; [exact Hrun|exact Hres|exact Hdata|exact Hdiags|].
  exact (Hconf NewSecretResource {| resource.ConfigureResponse_Diagnostics := [] |}).
Defined.

Lemma Configure_connection_failure_run :
  exists resp' w',
    run (Sim.externals None)
      (PodmanProvider_Configure
         {| provider.Config := Some {| Endpoint := types.StringValue "unix:/tmp/p.sock" |} |}
         {| provider.Diagnostics := []; provider.ResourceData := any_nil;
            provider.DataSourceData := any_nil |})
      (Sim.world Sim.engine_down) = Some (resp', w') /\
    diag.HasError (provider.Diagnostics resp') = true /\
    diag.NewErrorDiagnostic "failed to connect to podman socket" "connection refused"
      ∈ provider.Diagnostics resp' /\
    provider.ResourceData resp' = any_nil /\
    provider.DataSourceData resp' = any_nil.
Proof.
  apply (Configure_connection_failure (Sim.externals None)
           {| provider.Config := Some {| Endpoint := types.StringValue "unix:/tmp/p.sock" |} |}
           {| provider.Diagnostics := []; provider.ResourceData := any_nil;
              provider.DataSourceData := any_nil |}
           {| Endpoint := types.StringValue "unix:/tmp/p.sock" |}
           (Sim.world Sim.engine_down) "" Sim.unreachable eq_refl eq_refl);
    [discriminate | reflexivity].
Defined.

(** The provider built as version dev. *)
Lemma provider_and_resource_names_run :
  conn NewSecretResource = None /\
  metadata.ResourceResponse_TypeName
    (SecretResource_Metadata NewSecretResource
       {| metadata.ProviderTypeName :=
            metadata.TypeName
              (PodmanProvider_Metadata (New "dev" tt)
                 {| metadata.TypeName := ""; metadata.Version := "" |}) |}
       {| metadata.ResourceResponse_TypeName := "" |})
  = "podman_secret".
Proof.
  apply (proj2 (proj2 (proj2
           (provider_and_resource_names "dev"
              {| metadata.TypeName := ""; metadata.Version := "" |}
              {| metadata.ResourceResponse_TypeName := "" |})))
           (fun _ => NewSecretResource)).
  constructor.
Defined.

(** The two versions of Read on the record of abc123 with content bar. *)
Lemma earlier_Read_agrees_without_log_run :
  exists resp0' w0' resp' w',
    run (Sim.externals None)
      (V0.SecretResource_Read Sim.r
         {| V0.ReadRequest_State :=
              Some {| V0.Id := types.StringValue "abc123"; V0.Name := types.StringValue "foo";
                      V0.Driver := types.StringNull; V0.Labels := types.StringValue "l";
                      V0.Secret := types.StringValue "bar" |} |}
         {| V0.State := None; V0.Diagnostics := [] |})
      (Sim.world (Sim.engine_foo "bar")) = Some (resp0', w0') /\
    run (Sim.externals None)
      (SecretResource_Read Sim.r {| resource.ReadRequest_State := Some Sim.state_foo |}
         Sim.prior_resp)
      (Sim.world (Sim.engine_foo "bar")) = Some (resp', w') /\
    trace w0' = trace w' /\ engine w0' = engine w' /\
    log w0' = [] /\ length (log w') = 1 /\
    V0.Id <$> V0.State resp0' = Id <$> resource.State resp' /\
    V0.Name <$> V0.State resp0' = Name <$> resource.State resp' /\
    V0.Driver <$> V0.State resp0' = Driver <$> resource.State resp' /\
    V0.Secret <$> V0.State resp0' = Secret <$> resource.State resp' /\
    V0.Labels <$> V0.State resp0' = Some (types.StringValue "l") /\
    V0.Diagnostics resp0' = [].
Proof.
  apply (earlier_Read_agrees_without_log (Sim.externals None) Sim.r Sim.sock
           {| V0.Id := types.StringValue "abc123"; V0.Name := types.StringValue "foo";
              V0.Driver := types.StringNull; V0.Labels := types.StringValue "l";
              V0.Secret := types.StringValue "bar" |}
           Sim.state_foo {| V0.State := None; V0.Diagnostics := [] |} Sim.prior_resp
           (Sim.world (Sim.engine_foo "bar")) (Sim.info "abc123" "foo" "bar") []
           (Sim.engine_foo "bar"));
    reflexivity.
Defined.
